(** * plex-history-data-pipeline: a shallow embedding of [app/etl.py]

    The script polls Tautulli's [get_history] endpoint, reshapes the batch
    with pandas and writes it to the PostgreSQL relation [plex_history]
    with [INSERT ... ON CONFLICT (reference_id) DO NOTHING].

    Everything the script does lives in one function, [fetch_history], and
    the [__main__] loop around it.  The embedding follows the script line
    by line:

    - Python values are an inductive type; a [dict] is a [gmap string _];
    - a [DataFrame] is its column list together with its rows;
    - exceptions are an explicit [Raise] outcome;
    - the store, the open connection and everything observable (log lines,
      the HTTP request, SQL statements, sleeps) are threaded through a
      state-and-exception monad [M]. *)

From Stdlib Require Import ZArith Lia String Ascii List.
From stdpp Require Import base option list gmap strings fin_maps.

Open Scope string_scope.
Open Scope Z_scope.
Open Scope list_scope.

(** ** Python values and exceptions *)

(** The exception classes the script can meet.  All of them derive from
    [Exception], so every [except Exception] clause catches each one. *)
Inductive exn :=
  | ConnectionError                 (* requests: the host cannot be reached *)
  | Timeout                         (* requests: no answer within [timeout=10] *)
  | HTTPError (status : Z)          (* [response.raise_for_status()] *)
  | JSONDecodeError                 (* [response.json()] *)
  | KeyError (key : string)          (* [KeyError('date')] *)
  | KeyErrorLabels (labels : list string)
                                    (* [KeyError(['reference_id'])] *)
  | TypeError
  | ValueError
  | OverflowError
  | OutOfBoundsDatetime             (* pandas: outside the [datetime64[ns]] range *)
  | OperationalError                (* sqlalchemy: the connection is unusable *)
  | ProgrammingError                (* sqlalchemy: the statement is rejected *)
  | DataError                       (* sqlalchemy: a value does not fit its column *)
  | IntegrityError.                 (* sqlalchemy: a constraint is violated *)

Inductive result (A : Type) :=
  | OK (a : A)
  | Raise (e : exn).
Arguments OK {A} a.
Arguments Raise {A} e.

#[global] Instance exn_eq_dec : EqDecision exn.
Proof. solve_decision. Defined.

#[global] Instance result_ret : MRet result := @OK.
#[global] Instance result_bind : MBind result := fun A B f r =>
  match r with
  | OK a => f a
  | Raise e => Raise e
  end.

#[global] Instance result_fmap : FMap result := fun A B f r =>
  match r with
  | OK a => OK (f a)
  | Raise e => Raise e
  end.

Definition value_or {A} (d : A) (r : result A) : A :=
  match r with OK a => a | Raise _ => d end.

Definition is_OK {A} (r : result A) : bool :=
  match r with OK _ => true | Raise _ => false end.

(** A JSON scalar as [json.loads] hands it over.  Tautulli's history
    fields are integers, strings and nulls; fractional numbers and nested
    containers inside a history item are outside the model. *)
Inductive value :=
  | VNull
  | VBool (b : bool)
  | VInt (n : Z)
  | VStr (s : string).

(** One history item: a Python [dict]. *)
Abbreviation raw_record := (gmap string value).

(** An entry of a [DataFrame].  [CNaN] is what pandas puts where a record
    has no such key, [CNaT] is the missing timestamp, and a [Timestamp] is
    its count of nanoseconds since the epoch (pandas' [Timestamp.value]).
    [CFloat x] is the [float64] whose value is the integer [x]: the only
    floats the script meets are the integers of a column that has gaps. *)
Inductive cell :=
  | CNone
  | CNaN
  | CBool (b : bool)
  | CInt (n : Z)
  | CFloat (x : Z)
  | CStr (s : string)
  | CTimestamp (ns : Z)
  | CNaT.

#[global] Instance value_eq_dec : EqDecision value.
Proof. solve_decision. Defined.
#[global] Instance cell_eq_dec : EqDecision cell.
Proof. solve_decision. Defined.

Definition cell_of_value (v : value) : cell :=
  match v with
  | VNull => CNone
  | VBool b => CBool b
  | VInt n => CInt n
  | VStr s => CStr s
  end.

(** [pd.isna] *)
Definition isna (c : cell) : bool :=
  match c with
  | CNone | CNaN | CNaT => true
  | _ => false
  end.

(** ** [int(str)] *)

Module PyInt.

(** A Python [str] is held as its UTF-8 bytes; [int] reads its code
    points. *)
Definition continuation (a : ascii) : option Z :=
  let n := Z.of_nat (nat_of_ascii a) in
  if (128 <=? n) && (n <? 192) then Some (n - 128) else None.

(** What stands for a byte that is not UTF-8. *)
Definition replacement : Z := 65533.

Fixpoint code_points (l : list ascii) : list Z :=
  match l with
  | [] => []
  | a :: l1 =>
      let n := Z.of_nat (nat_of_ascii a) in
      if (n <? 128) then n :: code_points l1
      else if (n <? 194) || (245 <=? n) then replacement :: code_points l1
      else
        match l1 with
        | a1 :: l2 =>
            match continuation a1 with
            | Some c1 =>
                if (n <? 224) then ((n - 192) * 64 + c1) :: code_points l2
                else
                  match l2 with
                  | a2 :: l3 =>
                      match continuation a2 with
                      | Some c2 =>
                          if (n <? 240)
                          then ((n - 224) * 4096 + c1 * 64 + c2)
                                 :: code_points l3
                          else
                            match l3 with
                            | a3 :: l4 =>
                                match continuation a3 with
                                | Some c3 =>
                                    ((n - 240) * 262144 + c1 * 4096
                                     + c2 * 64 + c3) :: code_points l4
                                | None => replacement :: code_points l1
                                end
                            | [] => replacement :: code_points l1
                            end
                      | None => replacement :: code_points l1
                      end
                  | [] => replacement :: code_points l1
                  end
            | None => replacement :: code_points l1
            end
        | [] => [replacement]
        end
  end.

(** The blanks of Unicode beyond ASCII. *)
Definition unicode_spaces : list Z :=
  [133; 160; 5760; 8192; 8193; 8194; 8195; 8196; 8197; 8198; 8199; 8200;
   8201; 8202; 8232; 8233; 8239; 8287; 12288].

(** The zeros of the decimal digits of Unicode 14.0 beyond ASCII; the
    digits 1 to 9 follow each of them. *)
Definition unicode_zeros : list Z :=
  [1632; 1776; 1984; 2406; 2534; 2662; 2790; 2918; 3046; 3174; 3302; 3430;
   3558; 3664; 3792; 3872; 4160; 4240; 6112; 6160; 6470; 6608; 6784; 6800;
   6992; 7088; 7232; 7248; 42528; 43216; 43264; 43472; 43504; 43600; 44016;
   65296; 66720; 68912; 69734; 69872; 69942; 70096; 70384; 70736; 70864;
   71248; 71360; 71472; 71904; 72016; 72784; 73040; 73120; 92768; 92864;
   93008; 120782; 120792; 120802; 120812; 120822; 123200; 123632; 125264;
   130032].

Definition unicode_decimal (c : Z) : option Z :=
  (λ z, (c - z)) <$> find (λ z, (z <=? c) && (c <? z + 10)) unicode_zeros.

(** Before it reads a number, [int] turns every blank beyond ASCII into a
    space and every decimal digit into its ASCII digit; what is neither
    cannot be part of a number. *)
Definition to_ascii (c : Z) : ascii :=
  if (c <? 127) then ascii_of_nat (Z.to_nat c)
  else if existsb (Z.eqb c) unicode_spaces then " "%char
  else match unicode_decimal c with
       | Some d => ascii_of_nat (Z.to_nat (48 + d))
       | None => "?"%char
       end.

Definition is_space (a : ascii) : bool :=
  let n := nat_of_ascii a in
  ((9 <=? n)%nat && (n <=? 13)%nat) || (n =? 32)%nat.

Definition digit (a : ascii) : option Z :=
  let n := Z.of_nat (nat_of_ascii a) in
  if (48 <=? n) && (n <=? 57) then Some (n - 48) else None.

Definition underscore (a : ascii) : bool := (nat_of_ascii a =? 95)%nat.

Fixpoint lstrip (l : list ascii) : list ascii :=
  match l with
  | a :: l' => if is_space a then lstrip l' else l
  | [] => []
  end.

Definition strip (l : list ascii) : list ascii :=
  rev (lstrip (rev (lstrip l))).

(** Digits with single underscores between them; [acc] is the value read
    so far and [sep] tells whether the previous character was an
    underscore. *)
Fixpoint digits (acc : Z) (sep : bool) (l : list ascii) : option Z :=
  match l with
  | [] => if sep then None else Some acc
  | a :: l' =>
      match digit a with
      | Some d => digits (10 * acc + d) false l'
      | None => if underscore a && negb sep then digits acc true l' else None
      end
  end.

Definition unsigned (l : list ascii) : option Z :=
  match l with
  | a :: l' =>
      match digit a with
      | Some d => digits d false l'
      | None => None
      end
  | [] => None
  end.

Definition parse (s : string) : option Z :=
  match strip (to_ascii <$> code_points (list_ascii_of_string s)) with
  | "+"%char :: l => unsigned l
  | "-"%char :: l => Z.opp <$> unsigned l
  | l => unsigned l
  end.

End PyInt.

(** [int(s)] for a [str]: surrounding white space, one sign, decimal digits
    with single underscores between them. *)
Definition py_int (s : string) : result Z :=
  match PyInt.parse s with
  | Some n => OK n
  | None => Raise ValueError
  end.

(** ** Numbers *)

Definition int64_max : Z := 2 ^ 63 - 1.

Definition is_int64 (n : Z) : bool :=
  (- int64_max - 1 <=? n) && (n <=? int64_max).

(** The [float64] nearest to the integer [n], as the integer it is worth:
    [n] itself up to 53 bits, beyond that [n] rounded to 53 significant
    bits, a tie going to the even neighbour. *)
Definition float_of_int (n : Z) : Z :=
  let a := Z.abs n in
  let e := Z.log2 a - 52 in
  if e <=? 0 then n
  else
    let q := a / 2 ^ e in
    let r := a mod 2 ^ e in
    let half := 2 ^ (e - 1) in
    let q := if (half <? r) || ((r =? half) && Z.odd q) then q + 1 else q in
    Z.sgn n * (q * 2 ^ e).

(** ** Timestamps *)

Definition ns_per_second : Z := 10 ^ 9.

(** A number of seconds since the epoch fits a [datetime64[ns]] when its
    nanosecond count is an [int64] other than the one reserved for [NaT]. *)
Definition in_bounds (n : Z) : bool :=
  (- int64_max <=? n * ns_per_second) && (n * ns_per_second <=? int64_max).

(** The timestamp [n] seconds after the epoch. *)
Definition timestamp_of_seconds (n : Z) : result cell :=
  if in_bounds n then OK (CTimestamp (n * ns_per_second))
  else Raise OutOfBoundsDatetime.

(** The strings pandas reads as a missing timestamp. *)
Definition nat_strings : list string :=
  [""; "NaT"; "nat"; "NAT"; "nan"; "NaN"; "NAN"].

(** One entry under [pd.to_datetime(_, unit='s')].  A number is a number
    of seconds, a float being cut to the integer it is worth before it is
    scaled (pandas 2.2 and later), and the least [int64] standing for
    [NaT]; a missing entry becomes [NaT]; a boolean is refused.  A string
    goes through the number it spells: only integer spellings are
    represented here (pandas also reads fractional ones), every other
    string that is not a spelling of [NaT] counts as not convertible. *)
Definition to_datetime (c : cell) : result cell :=
  match c with
  | CNone | CNaN | CNaT => OK CNaT
  | CBool _ => Raise ValueError
  | CInt n | CFloat n =>
      if n =? - int64_max - 1 then OK CNaT else timestamp_of_seconds n
  | CStr s =>
      if bool_decide (s ∈ nat_strings) then OK CNaT
      else n ← py_int s; timestamp_of_seconds n
  | CTimestamp ns => OK (CTimestamp ns)
  end.

(** The calendar reading of a [Timestamp]: proleptic Gregorian, UTC. *)
Module Calendar.

Record datetime := Datetime {
  year : Z; month : Z; day : Z;
  hour : Z; minute : Z; second : Z; nanosecond : Z }.

(** Days since 1970-01-01 to (year, month, day), counting in 400-year
    eras that start on 1 March. *)
Definition civil_from_days (z : Z) : Z * Z * Z :=
  let z := z + 719468 in
  let era := z / 146097 in
  let doe := z mod 146097 in
  let yoe := (doe - doe / 1460 + doe / 36524 - doe / 146096) / 365 in
  let doy := doe - (365 * yoe + yoe / 4 - yoe / 100) in
  let mp := (5 * doy + 2) / 153 in
  let d := doy - (153 * mp + 2) / 5 + 1 in
  let m := if mp <? 10 then mp + 3 else mp - 9 in
  let y := yoe + era * 400 in
  (if m <=? 2 then y + 1 else y, m, d).

Definition days_from_civil (y m d : Z) : Z :=
  let y := if m <=? 2 then y - 1 else y in
  let era := y / 400 in
  let yoe := y mod 400 in
  let mp := if 2 <? m then m - 3 else m + 9 in
  let doy := (153 * mp + 2) / 5 + d - 1 in
  let doe := yoe * 365 + yoe / 4 - yoe / 100 + doy in
  era * 146097 + doe - 719468.

(** The fields of the [Timestamp] whose [value] is [ns]. *)
Definition fields (ns : Z) : datetime :=
  let s := ns / ns_per_second in
  let '(y, m, d) := civil_from_days (s / 86400) in
  let sod := s mod 86400 in
  Datetime y m d (sod / 3600) (sod mod 3600 / 60) (sod mod 60)
           (ns mod ns_per_second).

(** [Timestamp.timestamp()] on whole seconds: POSIX seconds of the fields. *)
Definition timestamp (t : datetime) : Z :=
  days_from_civil (year t) (month t) (day t) * 86400
  + hour t * 3600 + minute t * 60 + second t.

End Calendar.

(** ** DataFrames *)

(** A frame is its column labels and its rows; every row has an entry for
    every column.  The index is never used by the script and is left out. *)
Record DataFrame := Frame {
  columns : list string;
  rows : list (gmap string cell) }.

(** [pd.DataFrame(history_data)] on a list of dicts: the columns are the
    keys met in the batch, and a record without a key gets [NaN] there.
    (pandas keeps the columns in order of first appearance; the script only
    ever asks whether a label is among them, see [select].) *)
Definition all_keys (history_data : list raw_record) : gset string :=
  ⋃ (dom <$> history_data).

(** What the record [r] brings to column [c]. *)
Definition entry (c : string) (r : raw_record) : cell :=
  from_option cell_of_value CNaN (r !! c).

(** Each column then gets one dtype for all that it holds.  Integers with
    gaps between them ([None] or [NaN], at least one [NaN] or integer)
    make a [float64] column; every other column keeps what it was given,
    as [int64], [bool] or [object].  (Integers outside [int64] are kept
    as the Python integers they are, also where pandas would make the
    column [uint64] or [float64].) *)
Definition float64_column (vs : list cell) : bool :=
  forallb (λ v, match v with
                | CNone | CNaN => true
                | CInt n => is_int64 n
                | _ => false
                end) vs
  && existsb isna vs
  && existsb (λ v, negb (bool_decide (v = CNone))) vs.

Definition convert (vs : list cell) (v : cell) : cell :=
  if float64_column vs then
    match v with
    | CInt n => CFloat (float_of_int n)
    | CNone => CNaN
    | _ => v
    end
  else v.

(** The entry of the frame in column [c] for the record [r] of the batch. *)
Definition frame_cell (history_data : list raw_record) (c : string)
    (r : raw_record) : cell :=
  convert (entry c <$> history_data) (entry c r).

Definition pd_DataFrame (history_data : list raw_record) : DataFrame :=
  let keys := all_keys history_data in
  {| columns := elements keys;
     rows := (λ r : raw_record,
                map_imap (λ c _, Some (frame_cell history_data c r))
                         (gset_to_gmap () keys)) <$> history_data |}.

(** [df[labels]] *)
Definition select (labels : list string) (df : DataFrame) : DataFrame :=
  {| columns := labels;
     rows := (λ r : gmap string cell,
                filter (λ kv, kv.1 ∈ labels) r) <$> rows df |}.

(** [df[c]] as the list of its entries *)
Definition getitem (c : string) (df : DataFrame) : result (list cell) :=
  if bool_decide (c ∈ columns df)
  then OK ((λ r : gmap string cell, default CNaN (r !! c)) <$> rows df)
  else Raise (KeyError c).

(** [df[c] = series] with a series computed from the same frame *)
Definition setitem (c : string) (series : list cell) (df : DataFrame) : DataFrame :=
  {| columns := if bool_decide (c ∈ columns df) then columns df
                else columns df ++ [c];
     rows := zip_with (λ (r : gmap string cell) v, <[c := v]> r) (rows df) series |}.

(** [df.drop(columns=[c])] *)
Definition drop (c : string) (df : DataFrame) : result DataFrame :=
  if bool_decide (c ∈ columns df)
  then OK {| columns := filter (λ c', c' ≠ c) (columns df);
             rows := delete c <$> rows df |}
  else Raise (KeyError ("['" +:+ c +:+ "'] not found in axis")).

(** [df.dropna(subset=[c])] *)
Definition dropna (c : string) (df : DataFrame) : result DataFrame :=
  if bool_decide (c ∈ columns df)
  then OK {| columns := columns df;
             rows := filter (λ r : gmap string cell,
                               isna (default CNaN (r !! c)) = false) (rows df) |}
  else Raise (KeyErrorLabels [c]).

(** [int(x)] as [astype(int)] applies it to one entry; the target is
    [int64]. *)
Definition to_int64 (n : Z) : result Z :=
  if is_int64 n then OK n else Raise OverflowError.

(** A float is cut to the integer it is worth; one that is worth more than
    an [int64] holds comes out as the least [int64] (what the conversion
    instruction of x86-64 leaves).  An integer is read as the Python
    integer it is, which must fit an [int64]; where pandas has made a
    [uint64] column of integers beyond [int64], its conversion wraps
    instead, which is not represented. *)
Definition int_of_cell (c : cell) : result Z :=
  match c with
  | CBool b => OK (Z.b2z b)
  | CInt n => to_int64 n
  | CFloat x => OK (if is_int64 x then x else - int64_max - 1)
  | CStr s => n ← py_int s; to_int64 n
  | CNaN => Raise ValueError
  | CNone | CTimestamp _ | CNaT => Raise TypeError
  end.

(** [series.astype(int)] *)
Definition astype_int (series : list cell) : result (list cell) :=
  mapM (λ c, CInt <$> int_of_cell c) series.

(** [row[c]] for a row handed out by [df.iterrows()] *)
Definition row_get (c : string) (row : gmap string cell) : result cell :=
  match row !! c with
  | Some v => OK v
  | None => Raise (KeyError c)
  end.

(** ** The store *)

(** The parameters bound to one [INSERT], which are also the eight columns
    of a stored row. *)
Record params := Params {
  ref_id : cell; watched : cell; name : cell; title : cell;
  type : cell; dur : cell; ip : cell; plat : cell }.

#[global] Instance params_eq_dec : EqDecision params.
Proof. solve_decision. Defined.

(** The relation [plex_history], keyed by its primary key. *)
Abbreviation table := (gmap Z params).

Inductive statement :=
  | CreateTableIfNotExists
  | InsertOnConflictDoNothing (p : params).

(** [INSERT ... ON CONFLICT (reference_id) DO NOTHING]: the new table and
    the statement's [rowcount]. *)
Definition insert_on_conflict_do_nothing (k : Z) (p : params) (t : table) : table * Z :=
  match t !! k with
  | Some _ => (t, 0)
  | None => (<[k := p]> t, 1)
  end.

(** The column types of lines 68-79. *)
Inductive sqltype := INT | TEXT | TIMESTAMP.

(** [INT] is a 32-bit integer. *)
Definition int4 (n : Z) : bool := (- 2 ^ 31 <=? n) && (n <? 2 ^ 31).

(** The spellings PostgreSQL reads as an integer: blanks, one sign,
    decimal digits, blanks.  (From version 16 on it also reads other
    bases and underscores, which are refused here.) *)
Module PgInt.

Fixpoint digits (acc : Z) (l : list ascii) : option Z :=
  match l with
  | [] => Some acc
  | a :: l' =>
      match PyInt.digit a with
      | Some d => digits (10 * acc + d) l'
      | None => None
      end
  end.

Definition unsigned (l : list ascii) : option Z :=
  match l with
  | [] => None
  | _ => digits 0 l
  end.

Definition parse (s : string) : option Z :=
  match PyInt.strip (list_ascii_of_string s) with
  | "+"%char :: l => unsigned l
  | "-"%char :: l => Z.opp <$> unsigned l
  | l => unsigned l
  end.

End PgInt.

(** psycopg2 refuses to quote a string that holds a NUL character. *)
Definition has_nul (c : cell) : bool :=
  match c with
  | CStr s => existsb (λ a, (nat_of_ascii a =? 0)%nat) (list_ascii_of_string s)
  | _ => false
  end.

(** How PostgreSQL reads one parameter, as psycopg2 spells it, for a
    column of type [ty].  A string is a literal of the column's type; a
    boolean or a timestamp is no integer; [NaT] is spelled as a timestamp
    that does not parse; everything is accepted as text.  (The spellings
    of timestamps are not represented: what the script sends for
    [watched_at] is a [Timestamp] or [NaT].) *)
Definition literal (ty : sqltype) (c : cell) : result cell :=
  match ty, c with
  | _, CNone => OK CNone
  | _, CNaT => Raise DataError
  | INT, CStr s =>
      match PgInt.parse s with
      | Some n => if int4 n then OK (CInt n) else Raise DataError
      | None => Raise DataError
      end
  | INT, (CBool _ | CTimestamp _) => Raise ProgrammingError
  | INT, (CInt _ | CFloat _ | CNaN) => OK c
  | TEXT, _ => OK c
  | TIMESTAMP, CTimestamp _ => OK c
  | TIMESTAMP, CStr _ => Raise DataError
  | TIMESTAMP, (CBool _ | CInt _ | CFloat _ | CNaN) => Raise ProgrammingError
  end.

(** The cast that assigns the value to the column: a number must fit an
    [INT] column, and [NaN] is no integer.  A value sent to a [TEXT]
    column is stored as its spelling, which is kept here as the value
    that is spelled. *)
Definition assign (ty : sqltype) (c : cell) : result cell :=
  match ty, c with
  | INT, (CInt n | CFloat n) => if int4 n then OK (CInt n) else Raise DataError
  | INT, CNaN => Raise DataError
  | _, _ => OK c
  end.

(** The row PostgreSQL makes of the parameters of one [INSERT]: the
    statement is analysed first, column by column, and the values are
    cast when it is run; the primary key is not null. *)
Definition pg_row (p : params) : result params :=
  ref_id ← literal INT (ref_id p);
  watched ← literal TIMESTAMP (watched p);
  name ← literal TEXT (name p);
  title ← literal TEXT (title p);
  type ← literal TEXT (type p);
  dur ← literal INT (dur p);
  ip ← literal TEXT (ip p);
  plat ← literal TEXT (plat p);
  ref_id ← assign INT ref_id;
  dur ← assign INT dur;
  OK (Params ref_id watched name title type dur ip plat).

(** The primary key of a row, if it is not null. *)
Definition pkey (p : params) : option Z :=
  match ref_id p with
  | CInt k => Some k
  | _ => None
  end.

(** ** Effects *)

Inductive level := INFO | WARNING | ERROR.

Inductive message :=
  | StartingETL                     (* "--- Starting ETL Job ---" *)
  | ErrorFetching (e : exn)         (* "Error fetching from Tautulli: {e}" *)
  | NoDataFound                     (* "No data found." *)
  | Fetched (n : nat)               (* "Fetched {len(df)} records from Tautulli." *)
  | Processing (n : nat)            (* "Processing {len(df)} records for database insertion..." *)
  | Inserted (count : nat)          (* "Successfully inserted {count} new records." *)
  | ServiceStarted                  (* "Service started. Entering main loop." *)
  | StartingJob                     (* "Starting ETL job..." *)
  | JobFinished                     (* "Job finished successfully." *)
  | CriticalLoopError (e : exn)     (* "Critical loop error: {e}" *)
  | Sleeping (timeout : Z).         (* "Sleeping for {timeout} seconds..." *)

(** What the process does to the outside, in the order it does it.  A store
    operation is recorded when it is attempted. *)
Inductive event :=
  | Log (lvl : level) (msg : message)
  | HttpGet (timeout : Z)
  | Connect
  | Execute (s : statement)
  | Commit
  | Close
  | Sleep (seconds : Z).

(** An open connection: the relation as its transaction sees it, how
    many more operations the link to the server carries ([None]: it never
    drops), and whether a transaction has begun since the last commit. *)
Record connection := Conn {
  view : option table;
  budget : option nat;
  begun : bool }.

(** [plex_history] is the committed relation, [None] while it has not been
    created. *)
Record world := World {
  plex_history : option table;
  conn : option connection;
  trace : list event }.

Definition stored (w : world) : table := default ∅ (plex_history w).

Definition M (A : Type) : Type := world → result A * world.

#[global] Instance M_ret : MRet M := λ A a w, (OK a, w).
#[global] Instance M_bind : MBind M := λ A B f m w,
  match m w with
  | (OK a, w') => f a w'
  | (Raise e, w') => (Raise e, w')
  end.

Definition raise {A} (e : exn) : M A := λ w, (Raise e, w).

Definition lift {A} (r : result A) : M A := λ w, (r, w).

(** [try: m  except Exception as e: handler e] *)
Definition try_except {A} (m : M A) (handler : exn → M A) : M A := λ w,
  match m w with
  | (OK a, w') => (OK a, w')
  | (Raise e, w') => handler e w'
  end.

(** [m] followed by [cleanup] whether or not [m] raised *)
Definition finally {A} (m : M A) (cleanup : M unit) : M A := λ w,
  match m w with
  | (r, w') =>
      match cleanup w' with
      | (OK _, w'') => (r, w'')
      | (Raise e, w'') => (Raise e, w'')
      end
  end.

Definition modify (f : world → world) : M unit := λ w, (OK (), f w).

Definition emit (ev : event) : M unit :=
  modify (λ w, World (plex_history w) (conn w) (trace w ++ [ev])).

Definition log (lvl : level) (msg : message) : M unit := emit (Log lvl msg).

Definition sleep (seconds : Z) : M unit := emit (Sleep seconds).

(** One statement on the open connection: it fails once the link has
    dropped, otherwise [f] transforms the transaction's view.  The first
    statement after a commit begins a transaction. *)
Definition on_connection {A} (f : option table → result (A * option table)) : M A := λ w,
  match conn w with
  | None => (Raise ProgrammingError, w)
  | Some c =>
      match budget c with
      | Some O => (Raise OperationalError, w)
      | b =>
          match f (view c) with
          | OK (a, v) =>
              (OK a, World (plex_history w)
                           (Some (Conn v (Nat.pred <$> b) true)) (trace w))
          | Raise e =>
              (Raise e, World (plex_history w)
                              (Some (Conn (view c) (Nat.pred <$> b) true)) (trace w))
          end
      end
  end.

(** [engine.connect()]: [link] is how many operations the server will
    answer on this connection, the handshake included. *)
Definition connect (link : option nat) : M unit :=
  emit Connect;;
  match link with
  | Some O => raise OperationalError
  | _ => modify (λ w, World (plex_history w)
                            (Some (Conn (plex_history w) (Nat.pred <$> link) false))
                            (trace w))
  end.

(** Leaving the [with] block: whatever was not committed is rolled back. *)
Definition close : M unit :=
  emit Close;;
  modify (λ w, World (plex_history w) None (trace w)).

(** What [COMMIT] does when a transaction has begun: the view becomes the
    committed relation.  Without a transaction nothing is sent. *)
Definition end_transaction : M unit := λ w,
  match conn w with
  | None => (Raise ProgrammingError, w)
  | Some c =>
      if begun c then
        match budget c with
        | Some O => (Raise OperationalError, w)
        | b => (OK (), World (view c)
                             (Some (Conn (view c) (Nat.pred <$> b) false))
                             (trace w))
        end
      else (OK (), w)
  end.

(** [conn.commit()] *)
Definition commit : M unit :=
  emit Commit;;
  end_transaction.

(** The parameters of a statement are quoted before anything is sent. *)
Definition quote (s : statement) : result unit :=
  match s with
  | CreateTableIfNotExists => OK ()
  | InsertOnConflictDoNothing p =>
      if existsb has_nul [ref_id p; watched p; name p; title p; type p;
                          dur p; ip p; plat p]
      then Raise ValueError else OK ()
  end.

(** [conn.execute(text(...), ...)] *)
Definition execute (s : statement) : M Z :=
  emit (Execute s);;
  lift (quote s);;
  on_connection (λ v,
    match s with
    | CreateTableIfNotExists =>
        OK (-1, Some (default ∅ v))
    | InsertOnConflictDoNothing p =>
        match v with
        | Some t =>
            row ← pg_row p;
            match pkey row with
            | Some k =>
                let '(t', rowcount) := insert_on_conflict_do_nothing k row t in
                OK (rowcount, Some t')
            | None => Raise IntegrityError
            end
        | None => Raise ProgrammingError
        end
    end).

(** [with engine.connect() as conn: body] *)
Definition with_connection {A} (link : option nat) (body : M A) : M A :=
  connect link;; finally body close.

(** ** The request *)

Inductive document :=
  | Malformed (e : exn)
      (* parsed JSON on which [data['response']['data']['data']] raises [e],
         a [KeyError] or a [TypeError] *)
  | Envelope (history_data : list raw_record).

Inductive body :=
  | NotJson
  | Json (data : document).

Record response := Response {
  status_code : Z;
  content : body }.

(** How the server answered [requests.get(url, timeout=10)]. *)
Inductive http_result :=
  | Unreachable
  | TimedOut
  | Responded (r : response).

Definition requests_get (net : http_result) (timeout : Z) : M response :=
  emit (HttpGet timeout);;
  match net with
  | Unreachable => raise ConnectionError
  | TimedOut => raise Timeout
  | Responded r => mret r
  end.

(** [response.raise_for_status()]: client and server errors raise. *)
Definition raise_for_status (r : response) : result unit :=
  if (400 <=? status_code r) && (status_code r <? 600)
  then Raise (HTTPError (status_code r))
  else OK ().

(** [response.json()] *)
Definition json (r : response) : result document :=
  match content r with
  | NotJson => Raise JSONDecodeError
  | Json data => OK data
  end.

(** [data['response']['data']['data']] *)
Definition history_of (data : document) : result (list raw_record) :=
  match data with
  | Malformed e => Raise e
  | Envelope history_data => OK history_data
  end.

(** ** [fetch_history] *)

Definition cols : list string :=
  ["reference_id"; "date"; "friendly_name"; "full_title"; "media_type";
   "duration"; "ip_address"; "platform"].

(** Lines 53-60: keep the useful columns, turn [date] into [watched_at]. *)
Definition transform (df : DataFrame) : result DataFrame :=
  let df := select (filter (λ c, c ∈ columns df) cols) df in
  date ← getitem "date" df;
  watched_at ← mapM to_datetime date;
  let df := setitem "watched_at" watched_at df in
  drop "date" df.

(** Lines 84-85: drop the rows without a key, make the key an integer. *)
Definition clean (df : DataFrame) : result DataFrame :=
  df ← dropna "reference_id" df;
  reference_id ← getitem "reference_id" df;
  reference_id ← astype_int reference_id;
  OK (setitem "reference_id" reference_id df).

(** The dictionary of lines 97-106. *)
Definition bind_params (row : gmap string cell) : result params :=
  ref_id ← row_get "reference_id" row;
  watched ← row_get "watched_at" row;
  name ← row_get "friendly_name" row;
  title ← row_get "full_title" row;
  type ← row_get "media_type" row;
  dur ← row_get "duration" row;
  ip ← row_get "ip_address" row;
  plat ← row_get "platform" row;
  OK (Params ref_id watched name title type dur ip plat).

(** Lines 90-108: the loop over [df.iterrows()]. *)
Fixpoint insert_rows (rs : list (gmap string cell)) (count : nat) : M nat :=
  match rs with
  | [] => mret count
  | row :: rs' =>
      p ← lift (bind_params row);
      rowcount ← execute (InsertOnConflictDoNothing p);
      insert_rows rs' (if 0 <? rowcount then S count else count)
  end.

(** Lines 88-111: the loop, the commit and the report; the value is the
    local [count]. *)
Definition write (df : DataFrame) : M nat :=
  count ← insert_rows (rows df) 0%nat;
  commit;;
  log INFO (Inserted count);;
  mret count.

(** Lines 67-111. *)
Definition load (link : option nat) (df : DataFrame) : M nat :=
  with_connection link (
    execute CreateTableIfNotExists;;
    commit;;
    df ← lift (clean df);
    write df).

(** Lines 43-111: what [fetch_history] does with a parsed answer. *)
Definition after_fetch (data : document) (link : option nat) : M unit :=
  history_data ← lift (history_of data);
  if bool_decide (history_data = []) then
    log WARNING NoDataFound
  else
    let df := pd_DataFrame history_data in
    log INFO (Fetched (length (rows df)));;
    df ← lift (transform df);
    log INFO (Processing (length (rows df)));;
    load link df;;
    mret ().

(** One call of [fetch_history()].  [net] is what the network does to the
    request and [link] what the store's connection will bear. *)
Definition fetch_history (net : http_result) (link : option nat) : M unit :=
  log INFO StartingETL;;
  fetched ← try_except
    (response ← requests_get net 10;
     lift (raise_for_status response);;
     data ← lift (json response);
     mret (Some data))
    (λ e, log ERROR (ErrorFetching e);; mret None);
  match fetched with
  | None => mret ()
  | Some data => after_fetch data link
  end.

(** ** The main loop *)

(** What the outside does during one pass of the loop. *)
Record cycle := Cycle {
  net : http_result;
  link : option nat }.

(** One pass of the [while True] body. *)
Definition pass (c : cycle) : M unit :=
  try_except
    (log INFO StartingJob;;
     fetch_history (net c) (link c);;
     log INFO JobFinished)
    (λ e, log ERROR (CriticalLoopError e));;
  let timeout := 3600 in
  log INFO (Sleeping timeout);;
  sleep timeout.

(** The loop, driven through the passes the outside lets it make. *)
Fixpoint loop (cs : list cycle) : M unit :=
  match cs with
  | [] => mret ()
  | c :: cs' => pass c;; loop cs'
  end.

Definition main (cs : list cycle) : M unit :=
  log INFO ServiceStarted;;
  loop cs.

(** The spec's normalizer: what reaches the insert loop for a batch. *)
Definition normalize (history_data : list raw_record) : result DataFrame :=
  df ← transform (pd_DataFrame history_data);
  clean df.

(** ** Auxiliary definitions used by the statements *)

(** [w] with [evs] appended to what has been observed. *)
Definition with_trace (w : world) (evs : list event) : world :=
  World (plex_history w) (conn w) (trace w ++ evs).

(** What lines 35-41 leave behind: the exception they swallow, or the
    parsed document. *)
Definition fetched (net : http_result) : exn + document :=
  match net with
  | Unreachable => inl ConnectionError
  | TimedOut => inl Timeout
  | Responded r =>
      match raise_for_status r, json r with
      | Raise e, _ => inl e
      | OK _, Raise e => inl e
      | OK _, OK data => inr data
      end
  end.


(** A record whose unique key is there: the key exists and is not null. *)
Definition has_key (r : raw_record) : Prop :=
  isna (entry "reference_id" r) = false.

#[global] Instance has_key_dec r : Decision (has_key r).
Proof. unfold has_key. apply _. Defined.

(** The labels that survive line 56. *)
Definition kept (history_data : list raw_record) : list string :=
  filter (λ c, c ∈ elements (all_keys history_data)) cols.

(** The row [pd.DataFrame] makes of [r], cut down to [kept]. *)
Definition kept_row (history_data : list raw_record) (r : raw_record) :
    gmap string cell :=
  filter (λ kv, kv.1 ∈ kept history_data)
         (map_imap (λ c _, Some (frame_cell history_data c r))
                   (gset_to_gmap () (all_keys history_data))).

(** The row lines 59-60 make of it. *)
Definition transformed_row (history_data : list raw_record) (r : raw_record) :
    gmap string cell :=
  delete "date"
    (<["watched_at" :=
         value_or CNaT (to_datetime (frame_cell history_data "date" r))]>
       (kept_row history_data r)).

(** The row line 85 makes of it. *)
Definition normalized_row (history_data : list raw_record) (r : raw_record) :
    gmap string cell :=
  <["reference_id" :=
      value_or CNaN
        (CInt <$> int_of_cell (frame_cell history_data "reference_id" r))]>
    (transformed_row history_data r).

(** The labels of the frame that reaches the insert loop. *)
Definition normalized_columns (history_data : list raw_record) : list string :=
  filter (λ c, c ≠ "date") (kept history_data ++ ["watched_at"]).

(** The row an [INSERT] with the parameters [p] is about: the parameters
    pass the quoting and the columns, and the key is not null. *)
Definition accepted (p : params) : result params :=
  quote (InsertOnConflictDoNothing p);;
  row ← pg_row p;
  match pkey row with
  | Some _ => OK row
  | None => Raise IntegrityError
  end.

(** Parameters that are what the columns hold: a 32-bit key, a timestamp
    or null, and in the other columns strings without NUL, 32-bit
    integers or nulls. *)
Definition text_cell (c : cell) : bool :=
  match c with
  | CStr _ => negb (has_nul c)
  | CNone => true
  | _ => false
  end.

Definition int_cell (c : cell) : bool :=
  match c with
  | CInt n => int4 n
  | CNone => true
  | _ => false
  end.

Definition well_typed (p : params) : bool :=
  match ref_id p with CInt k => int4 k | _ => false end
  && match watched p with CTimestamp _ | CNone => true | _ => false end
  && text_cell (name p) && text_cell (title p) && text_cell (type p)
  && int_cell (dur p) && text_cell (ip p) && text_cell (plat p).

(** The primary keys of a list of rows, as a set. *)
Definition keys (ps : list params) : gset Z := list_to_set (omap pkey ps).

(** What a run of [INSERT ... ON CONFLICT DO NOTHING] statements, one per
    row of [ps], makes of the table [t], and how many of them report a
    positive [rowcount]. *)
Fixpoint upsert_all (ps : list params) (t : table) : table * nat :=
  match ps with
  | [] => (t, 0%nat)
  | p :: ps' =>
      match pkey p with
      | Some k =>
          let '(t1, rowcount) := insert_on_conflict_do_nothing k p t in
          let '(t2, n) := upsert_all ps' t1 in
          (t2, if 0 <? rowcount then S n else n)
      | None => upsert_all ps' t
      end
  end.

(** The first element of [ps] whose key is [k]. *)
Definition first_with_key (k : Z) (ps : list params) : option params :=
  head (filter (λ p, pkey p = Some k) ps).

(** The statements the loop sends for the parameter sets [ps]. *)
Definition inserts (ps : list params) : list event :=
  (λ p, Execute (InsertOnConflictDoNothing p)) <$> ps.

(** [m] only adds to what has been observed, and only events in [P]. *)
Definition emits {A} (P : event → Prop) (m : M A) : Prop :=
  ∀ w, ∃ evs, trace (m w).2 = trace w ++ evs ∧ Forall P evs.

(** ** Sample data *)

(** A history item the way Tautulli sends it, with identifier [id]. *)
Definition item (id : value) : raw_record :=
  list_to_map
    [("reference_id", id); ("date", VInt 1700000000);
     ("friendly_name", VStr "ann"); ("full_title", VStr "Alien");
     ("media_type", VStr "movie"); ("duration", VInt 7020);
     ("ip_address", VStr "10.0.0.2"); ("platform", VStr "Roku");
     ("user_id", VInt 7)].

(** The row [item (VInt k)] becomes. *)
Definition stored_item (k : Z) : params :=
  Params (CInt k) (CTimestamp 1700000000000000000) (CStr "ann")
         (CStr "Alien") (CStr "movie") (CInt 7020) (CStr "10.0.0.2")
         (CStr "Roku").

(** An answer with status 200 carrying [history_data]. *)
Definition answer (history_data : list raw_record) : http_result :=
  Responded (Response 200 (Json (Envelope history_data))).

(** A batch with a null key, a missing key and a key spelled as text. *)
Definition mixed_batch : list raw_record :=
  [item (VInt 1); item VNull; delete "reference_id" (item (VInt 3));
   item (VStr "4")].

(** A batch of two valid records and one whose key is not a number. *)
Definition abc_batch : list raw_record :=
  [item (VInt 1); item (VInt 2); item (VStr "abc")].

(** A fresh database and nothing observed yet. *)
Definition blank : world := World None None [].

#[global] Instance statement_eq_dec : EqDecision statement.
Proof. solve_decision. Defined.
#[global] Instance level_eq_dec : EqDecision level.
Proof. solve_decision. Defined.
#[global] Instance message_eq_dec : EqDecision message.
Proof. solve_decision. Defined.
#[global] Instance event_eq_dec : EqDecision event.
Proof. solve_decision. Defined.

(** How many times the process has gone to sleep. *)
Definition sleeps (w : world) : nat :=
  length (filter (λ ev, ev = Sleep 3600) (trace w)).

(** ** Definitions for the properties of whole cycles *)

(** The parameters lines 97-106 bind for the record [r] of the batch when
    every column of [cols] exists in the frame. *)
Definition params_of_record (history_data : list raw_record) (r : raw_record) :
    params :=
  Params (value_or CNaN
            (CInt <$> int_of_cell (frame_cell history_data "reference_id" r)))
         (value_or CNaT (to_datetime (frame_cell history_data "date" r)))
         (frame_cell history_data "friendly_name" r)
         (frame_cell history_data "full_title" r)
         (frame_cell history_data "media_type" r)
         (frame_cell history_data "duration" r)
         (frame_cell history_data "ip_address" r)
         (frame_cell history_data "platform" r).

(** The parameter sets of the statements a cycle sends for a batch. *)
Definition params_of_batch (history_data : list raw_record) : list params :=
  params_of_record history_data <$> filter has_key history_data.

(** A record as Tautulli documents it: an integer date that fits a
    timestamp, an identifier and a duration that fit an [INT] column (the
    identifier may be null), and for each of the five text fields a
    string without NUL or null. *)
Definition text_field (v : option value) : bool :=
  match v with
  | Some (VStr s) => negb (has_nul (CStr s))
  | Some VNull => true
  | _ => false
  end.

Definition well_formed (r : raw_record) : bool :=
  match r !! "reference_id" with
  | Some (VInt k) => int4 k
  | Some VNull => true
  | _ => false
  end
  && match r !! "date" with
     | Some (VInt n) => in_bounds n
     | _ => false
     end
  && match r !! "duration" with
     | Some (VInt d) => int4 d
     | _ => false
     end
  && forallb (λ c, text_field (r !! c))
       ["friendly_name"; "full_title"; "media_type"; "ip_address"; "platform"].

(** The row a well-formed record with a key is stored as. *)
Definition row_of_record (r : raw_record) : params :=
  Params (entry "reference_id" r)
         (value_or CNaT (to_datetime (entry "date" r)))
         (entry "friendly_name" r) (entry "full_title" r)
         (entry "media_type" r) (entry "duration" r)
         (entry "ip_address" r) (entry "platform" r).

(** The rows a cycle has to offer for a batch of well-formed records. *)
Definition rows_of_batch (history_data : list raw_record) : list params :=
  row_of_record <$> filter has_key history_data.

(** How many requests have been sent to Tautulli. *)
Definition requests (w : world) : nat :=
  length (filter (λ ev, ev = HttpGet 10) (trace w)).

(** The columns line 56 may drop without the script noticing at once. *)
Definition optional_cols : list string :=
  ["friendly_name"; "full_title"; "media_type"; "duration"; "ip_address";
   "platform"].
(** * Properties *)

(** ** The model on small inputs *)

Example py_int_abc : py_int "abc" = Raise ValueError.
Proof. reflexivity. Qed.

Example py_int_padded : py_int " -1_042 " = OK (-1042).
Proof. reflexivity. Qed.

Example py_int_empty : py_int "" = Raise ValueError.
Proof. reflexivity. Qed.

Example py_int_arabic_indic : py_int "١٢" = OK 12.
Proof. reflexivity. Qed.

Example py_int_control : py_int (String (ascii_of_nat 28) "5") = Raise ValueError.
Proof. reflexivity. Qed.

Example in_bounds_edge :
  in_bounds 9223372036 = true ∧ in_bounds 9223372037 = false.
Proof. split; reflexivity. Qed.

(** Scenario B of the specification: three records, one of them already
    stored; two rows are reported as new. *)
Example two_new_one_known :
  (load None (value_or (Frame [] [])
                (transform (pd_DataFrame [item (VInt 1); item (VInt 2);
                                          item (VInt 3)])))
        (World (Some {[2 := stored_item 2]}) None [])).1
  = OK 2%nat.
Proof. vm_compute. reflexivity. Qed.

(** A connection that drops before the last commit leaves nothing behind
    but the empty relation. *)
Example dropped_link_rolls_back :
  ∃ w', fetch_history (answer [item (VInt 1); item (VInt 2)]) (Some 5%nat) blank
        = (Raise OperationalError, w')
        ∧ plex_history w' = Some ∅.
Proof. eexists. split; [vm_compute; reflexivity|reflexivity]. Qed.

(** A column of integers with a gap is held as floats: the second record
    has no duration, so that of the first is sent as 7020.0 and that of
    the second as NaN, which the [INT] column refuses. *)
Example gap_in_duration :
  let h := [item (VInt 1); delete "duration" (item (VInt 2))] in
  frame_cell h "duration" (item (VInt 1)) = CFloat 7020
  ∧ frame_cell h "duration" (delete "duration" (item (VInt 2))) = CNaN
  ∧ (fetch_history (answer h) None blank).1 = Raise DataError.
Proof. repeat split; vm_compute; reflexivity. Qed.

(** A key that does not fit the 32 bits of [INT] is refused. *)
Example key_out_of_range :
  (fetch_history (answer [item (VInt (2 ^ 31))]) None blank).1
  = Raise DataError.
Proof. vm_compute. reflexivity. Qed.

(** Next to a null key, a key of more than 53 bits is rounded. *)
Example rounded_key :
  (λ df, (λ row : gmap string cell, row !! "reference_id") <$> rows df)
    <$> normalize [item (VInt (2 ^ 53 + 1)); item VNull]
  = OK [Some (CInt (2 ^ 53))].
Proof. vm_compute. reflexivity. Qed.

(** With no row to insert the last commit finds no transaction and sends
    nothing, so that a link that carries three operations is enough. *)
Example idle_commit_sends_nothing :
  (fetch_history (answer [item VNull]) (Some 3%nat) blank).1 = OK ().
Proof. vm_compute. reflexivity. Qed.

(** ** Running the monad *)

#[global] Arguments execute : simpl never.
#[global] Arguments commit : simpl never.
#[global] Arguments with_connection : simpl never.
#[global] Arguments write : simpl never.
#[global] Arguments load : simpl never.
#[global] Arguments after_fetch : simpl never.
#[global] Arguments fetch_history : simpl never.
#[global] Arguments pass : simpl never.

Lemma with_trace_nil w : with_trace w [] = w.
Proof. destruct w; unfold with_trace; simpl. by rewrite app_nil_r. Qed.

Lemma with_trace_app w evs evs' :
  with_trace (with_trace w evs) evs' = with_trace w (evs ++ evs').
Proof. unfold with_trace; simpl. by rewrite app_assoc. Qed.

Lemma bind_run {A B} (m : M A) (f : A → M B) w :
  (m ≫= f) w =
  match m w with
  | (OK a, w') => f a w'
  | (Raise e, w') => (Raise e, w')
  end.
Proof. reflexivity. Qed.

Lemma emit_run ev w : emit ev w = (OK (), with_trace w [ev]).
Proof. reflexivity. Qed.

Lemma log_run lvl msg w : log lvl msg w = (OK (), with_trace w [Log lvl msg]).
Proof. reflexivity. Qed.

Lemma raise_run {A} e w : @raise A e w = (Raise e, w).
Proof. reflexivity. Qed.

Lemma lift_run {A} (r : result A) w : lift r w = (r, w).
Proof. reflexivity. Qed.

Lemma ret_run {A} (a : A) w : (mret a : M A) w = (OK a, w).
Proof. reflexivity. Qed.

Ltac run :=
  repeat first
    [ rewrite bind_run | rewrite log_run | rewrite emit_run
    | rewrite raise_run | rewrite lift_run | rewrite ret_run
    | rewrite with_trace_app | progress simpl ].

Lemma fetch_history_run net link w :
  fetch_history net link w =
  match fetched net with
  | inl e =>
      (OK (), with_trace w [Log INFO StartingETL; HttpGet 10;
                             Log ERROR (ErrorFetching e)])
  | inr data =>
      after_fetch data link (with_trace w [Log INFO StartingETL; HttpGet 10])
  end.
Proof.
  unfold fetch_history, fetched. run.
  unfold try_except, requests_get. run.
  destruct net as [| |r]; run; try reflexivity.
  destruct (raise_for_status r) as [[]|e]; run; [|reflexivity].
  destruct (json r); run; reflexivity.
Qed.

Lemma pass_run c w :
  pass c w =
  match fetch_history (net c) (link c) (with_trace w [Log INFO StartingJob]) with
  | (OK _, w') =>
      (OK (), with_trace w' [Log INFO JobFinished; Log INFO (Sleeping 3600);
                              Sleep 3600])
  | (Raise e, w') =>
      (OK (), with_trace w' [Log ERROR (CriticalLoopError e);
                              Log INFO (Sleeping 3600); Sleep 3600])
  end.
Proof.
  unfold pass, try_except, sleep. run.
  destruct (fetch_history _ _ _) as [[[]|e] w']; run; reflexivity.
Qed.

(** ** The fetch step and the loop *)

Lemma sleeps_with_trace w evs :
  sleeps (with_trace w evs)
  = (sleeps w + length (filter (λ ev, ev = Sleep 3600) evs))%nat.
Proof. unfold sleeps, with_trace; simpl. by rewrite filter_app, length_app. Qed.

Section emits.
Context (P : event → Prop).

Lemma emits_ret {A} (a : A) : emits P (mret a : M A).
Proof. intros w. exists []. by rewrite app_nil_r. Qed.

Lemma emits_raise {A} e : emits P (@raise A e).
Proof. intros w. exists []. by rewrite app_nil_r. Qed.

Lemma emits_lift {A} (r : result A) : emits P (lift r).
Proof. intros w. exists []. by rewrite app_nil_r. Qed.

Lemma emits_emit ev : P ev → emits P (emit ev).
Proof. intros HP w. exists [ev]. auto. Qed.

Lemma emits_modify f :
  (∀ w, trace (f w) = trace w) → emits P (modify f).
Proof. intros Hf w. exists []. simpl. by rewrite Hf, app_nil_r. Qed.

Lemma emits_bind {A B} (m : M A) (f : A → M B) :
  emits P m → (∀ a, emits P (f a)) → emits P (m ≫= f).
Proof.
  intros Hm Hf w. rewrite bind_run.
  destruct (Hm w) as (evs & Ht & HP).
  destruct (m w) as [[a|e] w']; simpl in *.
  - destruct (Hf a w') as (evs' & Ht' & HP').
    exists (evs ++ evs'). rewrite Ht', Ht, app_assoc.
    split; [done|]. by apply Forall_app.
  - by exists evs.
Qed.

Lemma emits_try_except {A} (m : M A) (h : exn → M A) :
  emits P m → (∀ e, emits P (h e)) → emits P (try_except m h).
Proof.
  intros Hm Hh w. unfold try_except.
  destruct (Hm w) as (evs & Ht & HP).
  destruct (m w) as [[a|e] w']; simpl in *.
  - by exists evs.
  - destruct (Hh e w') as (evs' & Ht' & HP').
    exists (evs ++ evs'). rewrite Ht', Ht, app_assoc.
    split; [done|]. by apply Forall_app.
Qed.

Lemma emits_finally {A} (m : M A) (c : M unit) :
  emits P m → emits P c → emits P (finally m c).
Proof.
  intros Hm Hc w. unfold finally.
  destruct (Hm w) as (evs & Ht & HP).
  destruct (m w) as [r w']; simpl in *.
  destruct (Hc w') as (evs' & Ht' & HP').
  exists (evs ++ evs').
  destruct (c w') as [[[]|e] w'']; simpl in *;
    (rewrite Ht', Ht, app_assoc; split; [done|]; by apply Forall_app).
Qed.

Lemma emits_on_connection {A} (f : option table → result (A * option table)) :
  emits P (on_connection f).
Proof.
  intros w. exists []. rewrite app_nil_r. unfold on_connection.
  destruct (conn w) as [[v [[|n]|] g]|]; simpl; try done;
    destruct (f v) as [[a v']|e]; done.
Qed.

Lemma emits_end_transaction : emits P end_transaction.
Proof.
  intros w. exists []. rewrite app_nil_r. unfold end_transaction.
  by destruct (conn w) as [[v [[|n]|] []]|].
Qed.
End emits.

Ltac emits_step :=
  first
    [ apply emits_bind; [|intros ?]
    | apply emits_ret | apply emits_raise | apply emits_lift
    | apply emits_on_connection
    | apply emits_end_transaction
    | apply emits_emit
    | apply emits_modify; intros ?; reflexivity
    | apply emits_try_except; [|intros ?]
    | apply emits_finally ].

Lemma emits_insert_rows P rs count :
  (∀ s, P (Execute s)) → emits P (insert_rows rs count).
Proof.
  intros HP. revert count. induction rs as [|row rs IH]; intros count; simpl.
  - apply emits_ret.
  - unfold execute. repeat emits_step; auto.
Qed.

Lemma emits_load P link df :
  (∀ s, P (Execute s)) → P Connect → P Commit → P Close →
  (∀ lvl msg, P (Log lvl msg)) → emits P (load link df).
Proof.
  intros. unfold load, with_connection, connect, close, write, commit,
    execute, log.
  repeat emits_step; auto.
  - destruct link as [[|n]|]; repeat emits_step.
  - by apply emits_insert_rows.
Qed.

Lemma emits_fetch_history P net link :
  (∀ s, P (Execute s)) → P Connect → P Commit → P Close →
  (∀ lvl msg, P (Log lvl msg)) → P (HttpGet 10) →
  emits P (fetch_history net link).
Proof.
  intros. unfold fetch_history, after_fetch, requests_get, log.
  repeat emits_step; auto.
  - destruct net; repeat emits_step.
  - match goal with |- emits _ (match ?x with _ => _ end) => destruct x end;
      repeat emits_step.
    case_bool_decide; repeat first [by apply emits_load | emits_step]; auto.
Qed.

(** [fetch_history] never sleeps. *)
Lemma fetch_history_sleeps net link w :
  sleeps (fetch_history net link w).2 = sleeps w.
Proof.
  destruct (emits_fetch_history (λ ev, ev ≠ Sleep 3600) net link) with (w := w)
    as (evs & Ht & HP); try done.
  unfold sleeps. rewrite Ht, filter_app, length_app.
  replace (filter _ evs) with (@nil event); [simpl; lia|].
  symmetry. clear Ht. induction HP as [|ev evs Hev _ IH]; [done|].
  rewrite filter_cons_False; done.
Qed.

Lemma pass_sleeps c w :
  ∃ w', pass c w = (OK (), w') ∧ sleeps w' = S (sleeps w).
Proof.
  rewrite pass_run.
  pose proof (fetch_history_sleeps (net c) (link c)
                (with_trace w [Log INFO StartingJob])) as Hs.
  rewrite sleeps_with_trace in Hs. simpl in Hs.
  destruct (fetch_history _ _ _) as [[[]|e] w']; simpl in Hs;
    eexists; (split; [reflexivity|]);
    rewrite sleeps_with_trace; simpl; lia.
Qed.

Lemma loop_sleeps cs w :
  ∃ w', loop cs w = (OK (), w') ∧ sleeps w' = (sleeps w + length cs)%nat.
Proof.
  revert w. induction cs as [|c cs IH]; intros w; simpl.
  - exists w. split; [done|lia].
  - rewrite bind_run.
    destruct (pass_sleeps c w) as (w1 & -> & Hs1).
    destruct (IH w1) as (w2 & -> & Hs2).
    exists w2. split; [done|lia].
Qed.

(** C1, as amended.  An exception raised while the request is sent, its
    status checked or its body parsed is caught inside [fetch_history],
    which logs it and returns.  Every other exception of the cycle leaves
    [fetch_history]: whatever lines 43-111 raise, the call raises, be it
    the answer that lacks the history path, a step of the normalizer
    (lines 53-60) or the load (lines 67-111, the rest of the normalizer
    included).  The loop around the call catches what comes out, logs it
    and goes to sleep as after any other pass.  So no pass raises, and
    the loop makes every pass it is given. *)
Theorem C1_failures_stop_at_the_loop (c : cycle) (cs : list cycle) (w : world) :
  (∀ e, fetched (net c) = inl e →
     fetch_history (net c) (link c) w
     = (OK (), with_trace w [Log INFO StartingETL; HttpGet 10;
                              Log ERROR (ErrorFetching e)]))
  ∧ (∀ data e w1,
       fetched (net c) = inr data →
       after_fetch data (link c)
                   (with_trace w [Log INFO StartingETL; HttpGet 10])
       = (Raise e, w1) →
       fetch_history (net c) (link c) w = (Raise e, w1))
  ∧ (∀ data e,
       fetched (net c) = inr data → history_of data = Raise e →
       fetch_history (net c) (link c) w
       = (Raise e, with_trace w [Log INFO StartingETL; HttpGet 10]))
  ∧ (∀ data h e,
       fetched (net c) = inr data → history_of data = OK h → h ≠ [] →
       transform (pd_DataFrame h) = Raise e →
       fetch_history (net c) (link c) w
       = (Raise e, with_trace w [Log INFO StartingETL; HttpGet 10;
                                 Log INFO (Fetched (length h))]))
  ∧ (∀ data h df e w1,
       fetched (net c) = inr data → history_of data = OK h → h ≠ [] →
       transform (pd_DataFrame h) = OK df →
       load (link c) df
            (with_trace w [Log INFO StartingETL; HttpGet 10;
                           Log INFO (Fetched (length h));
                           Log INFO (Processing (length (rows df)))])
       = (Raise e, w1) →
       fetch_history (net c) (link c) w = (Raise e, w1))
  ∧ (∀ e w1,
       fetch_history (net c) (link c) (with_trace w [Log INFO StartingJob])
       = (Raise e, w1) →
       pass c w
       = (OK (), with_trace w1 [Log ERROR (CriticalLoopError e);
                                 Log INFO (Sleeping 3600); Sleep 3600]))
  ∧ (pass c w).1 = OK ()
  ∧ ∃ w', loop (c :: cs) w = (OK (), w')
          ∧ sleeps w' = (sleeps w + S (length cs))%nat.
Proof.
  assert (∀ data h, history_of data = OK h → h ≠ [] →
            after_fetch data (link c)
                        (with_trace w [Log INFO StartingETL; HttpGet 10])
            = match transform (pd_DataFrame h) with
              | OK df =>
                  match load (link c) df
                          (with_trace w [Log INFO StartingETL; HttpGet 10;
                                         Log INFO (Fetched (length h));
                                         Log INFO (Processing (length (rows df)))])
                  with
                  | (OK _, w1) => (OK (), w1)
                  | (Raise e, w1) => (Raise e, w1)
                  end
              | Raise e =>
                  (Raise e, with_trace w [Log INFO StartingETL; HttpGet 10;
                                          Log INFO (Fetched (length h))])
              end) as Hafter.
  { intros data h Hh Hne. unfold after_fetch.
    rewrite bind_run, lift_run, Hh.
    rewrite bool_decide_eq_false_2 by done.
    rewrite bind_run, log_run, bind_run, lift_run.
    replace (length (rows (pd_DataFrame h))) with (length h)
      by (unfold pd_DataFrame; simpl; by rewrite length_fmap).
    rewrite with_trace_app. simpl.
    destruct (transform (pd_DataFrame h)) as [df|e]; [|done].
    rewrite bind_run, log_run, with_trace_app, bind_run. simpl.
    by destruct (load _ _ _) as [[n|e] w1]. }
  repeat split.
  - intros e He. by rewrite fetch_history_run, He.
  - intros data e w1 Hd He. by rewrite fetch_history_run, Hd.
  - intros data e Hd He. rewrite fetch_history_run, Hd.
    unfold after_fetch. by rewrite bind_run, lift_run, He.
  - intros data h e Hd Hh Hne He.
    by rewrite fetch_history_run, Hd, (Hafter data h Hh Hne), He.
  - intros data h df e w1 Hd Hh Hne Hdf He.
    by rewrite fetch_history_run, Hd, (Hafter data h Hh Hne), Hdf, He.
  - intros e w1 He. by rewrite pass_run, He.
  - by destruct (pass_sleeps c w) as (w' & -> & _).
  - destruct (loop_sleeps (c :: cs) w) as (w' & Hl & Hs).
    exists w'. split; [done|]. simpl in Hs. lia.
Qed.

Lemma C1_witness :
  fetch_history TimedOut None blank
  = (OK (), with_trace blank [Log INFO StartingETL; HttpGet 10;
                               Log ERROR (ErrorFetching Timeout)])
  ∧ fetch_history (answer [delete "date" (item (VInt 1))]) None blank
    = (Raise (KeyError "date"),
       with_trace blank
         [Log INFO StartingETL; HttpGet 10;
          Log INFO (Fetched (length [delete "date" (item (VInt 1))]))])
  ∧ ∃ w1,
      fetch_history (answer [delete "date" (item (VInt 1))]) None
                    (with_trace blank [Log INFO StartingJob])
      = (Raise (KeyError "date"), w1)
      ∧ pass (Cycle (answer [delete "date" (item (VInt 1))]) None) blank
        = (OK (), with_trace w1 [Log ERROR (CriticalLoopError (KeyError "date"));
                                  Log INFO (Sleeping 3600); Sleep 3600]).
Proof.
  split; [|split].
  - apply (C1_failures_stop_at_the_loop (Cycle TimedOut None) [] blank).
    reflexivity.
  - apply (C1_failures_stop_at_the_loop
             (Cycle (answer [delete "date" (item (VInt 1))]) None) [] blank)
      with (data := Envelope [delete "date" (item (VInt 1))]).
    + reflexivity.
    + reflexivity.
    + done.
    + vm_compute. reflexivity.
  - eexists. split.
    + vm_compute. reflexivity.
    + apply (C1_failures_stop_at_the_loop
               (Cycle (answer [delete "date" (item (VInt 1))]) None) [] blank).
      vm_compute. reflexivity.
Defined.

(** C1 as stated fails: an exception of the normalize step (no [date]
    column) and one of the load step (the store refuses the connection)
    both come out of the call of [fetch_history]. *)
Lemma C1_exceptions_leave_fetch_history :
  (fetch_history (answer [delete "date" (item (VInt 1))]) None blank).1
  = Raise (KeyError "date")
  ∧ (fetch_history (answer [item (VInt 1)]) (Some 0%nat) blank).1
    = Raise OperationalError.
Proof. split; vm_compute; reflexivity. Qed.

(** C5, as amended.  When the request cannot reach the server, times out,
    is answered with a 4xx or 5xx status, or is answered with a body that
    is not JSON, [fetch_history] logs the error and returns: the store and
    the connection are as before, and the request and two log lines are
    all that happened. *)
Theorem C5_fetch_failures_end_the_cycle (net : http_result) (link : option nat)
    (w : world) :
  net = Unreachable ∨ net = TimedOut ∨
  (∃ r, net = Responded r ∧
        (400 ≤ status_code r < 600 ∨ content r = NotJson)) →
  ∃ e, fetch_history net link w
       = (OK (), with_trace w [Log INFO StartingETL; HttpGet 10;
                                Log ERROR (ErrorFetching e)]).
Proof.
  intros H. rewrite fetch_history_run.
  destruct H as [->|[->|(r & -> & H)]]; simpl; eauto.
  unfold raise_for_status, json.
  destruct H as [H|H].
  - replace ((400 <=? status_code r) && (status_code r <? 600)) with true
      by (symmetry; apply andb_true_iff; split;
          [apply Z.leb_le|apply Z.ltb_lt]; lia).
    eauto.
  - rewrite H. destruct (_ && _); eauto.
Qed.

Lemma C5_witness :
  ∃ e, fetch_history (Responded (Response 503 NotJson)) None blank
       = (OK (), with_trace blank [Log INFO StartingETL; HttpGet 10;
                                    Log ERROR (ErrorFetching e)]).
Proof.
  apply (C5_fetch_failures_end_the_cycle (Responded (Response 503 NotJson))).
  right; right. eexists. split; [reflexivity|]. left. simpl. lia.
Defined.

(** C5 as stated fails: an answer with status 300 is not a 2xx answer, yet
    its history is normalized and loaded; and a JSON body without the
    history path raises out of [fetch_history] instead of being logged
    there. *)
Lemma C5_status_300_is_loaded :
  fetch_history (Responded (Response 300 (Json (Envelope [item (VInt 1)]))))
                None blank
  = (OK (),
     World (Some {[1 := stored_item 1]}) None
       [Log INFO StartingETL; HttpGet 10; Log INFO (Fetched 1);
        Log INFO (Processing 1); Connect; Execute CreateTableIfNotExists;
        Commit; Execute (InsertOnConflictDoNothing (stored_item 1)); Commit;
        Log INFO (Inserted 1); Close])
  ∧ fetch_history
      (Responded (Response 200 (Json (Malformed (KeyError "response")))))
      None blank
    = (Raise (KeyError "response"),
       with_trace blank [Log INFO StartingETL; HttpGet 10]).
Proof. split; vm_compute; reflexivity. Qed.

(** C6.  When the request succeeds and the history it returns is empty,
    [fetch_history] logs a warning and returns: no exception, nothing
    sent to the store, the store as it was; the loop then reports the job
    as finished and goes to sleep. *)
Theorem C6_empty_history_ends_the_cycle (r : response) (link : option nat)
    (w : world) :
  raise_for_status r = OK () → content r = Json (Envelope []) →
  fetch_history (Responded r) link w
  = (OK (), with_trace w [Log INFO StartingETL; HttpGet 10;
                           Log WARNING NoDataFound])
  ∧ pass (Cycle (Responded r) link) w
    = (OK (), with_trace w [Log INFO StartingJob; Log INFO StartingETL;
                             HttpGet 10; Log WARNING NoDataFound;
                             Log INFO JobFinished; Log INFO (Sleeping 3600);
                             Sleep 3600]).
Proof.
  intros Hs Hc.
  assert (∀ w, fetch_history (Responded r) link w
               = (OK (), with_trace w [Log INFO StartingETL; HttpGet 10;
                                        Log WARNING NoDataFound])) as H.
  { intros w0. rewrite fetch_history_run. simpl. rewrite Hs.
    unfold json. rewrite Hc. unfold after_fetch. run. reflexivity. }
  split; [apply H|].
  rewrite pass_run. simpl. rewrite H. by rewrite !with_trace_app.
Qed.

Lemma C6_witness :
  fetch_history (answer []) None blank
  = (OK (), with_trace blank [Log INFO StartingETL; HttpGet 10;
                               Log WARNING NoDataFound])
  ∧ pass (Cycle (answer []) None) blank
    = (OK (), with_trace blank [Log INFO StartingJob; Log INFO StartingETL;
                                 HttpGet 10; Log WARNING NoDataFound;
                                 Log INFO JobFinished; Log INFO (Sleeping 3600);
                                 Sleep 3600]).
Proof.
  apply (C6_empty_history_ends_the_cycle (Response 200 (Json (Envelope [])))
           None blank); reflexivity.
Defined.

(** ** Runs of [INSERT ... ON CONFLICT DO NOTHING] *)

Lemma insert_on_conflict_taken k p (t : table) :
  is_Some (t !! k) → insert_on_conflict_do_nothing k p t = (t, 0).
Proof. intros [q Hq]. unfold insert_on_conflict_do_nothing. by rewrite Hq. Qed.

Lemma insert_on_conflict_fresh k p (t : table) :
  t !! k = None → insert_on_conflict_do_nothing k p t = (<[k := p]> t, 1).
Proof. intros Hk. unfold insert_on_conflict_do_nothing. by rewrite Hk. Qed.

Lemma upsert_all_cons p ps (t : table) k :
  pkey p = Some k →
  upsert_all (p :: ps) t =
  match t !! k with
  | Some _ => upsert_all ps t
  | None => ((upsert_all ps (<[k := p]> t)).1, S (upsert_all ps (<[k := p]> t)).2)
  end.
Proof.
  intros Hk. simpl. rewrite Hk. unfold insert_on_conflict_do_nothing.
  destruct (t !! k); simpl.
  - by destruct (upsert_all ps t).
  - by destruct (upsert_all ps _).
Qed.

Lemma upsert_all_no_key p ps (t : table) :
  pkey p = None → upsert_all (p :: ps) t = upsert_all ps t.
Proof. intros Hk. simpl. by rewrite Hk. Qed.

Lemma keys_cons p ps k : pkey p = Some k → keys (p :: ps) = {[k]} ∪ keys ps.
Proof. intros Hk. unfold keys. simpl. by rewrite Hk. Qed.

Lemma keys_cons_no_key p ps : pkey p = None → keys (p :: ps) = keys ps.
Proof. intros Hk. unfold keys. simpl. by rewrite Hk. Qed.

(** Rows are only ever added. *)
Lemma upsert_all_subseteq ps (t : table) : t ⊆ (upsert_all ps t).1.
Proof.
  revert t. induction ps as [|p ps IH]; intros t; [done|].
  destruct (pkey p) as [k|] eqn:Hk.
  - rewrite (upsert_all_cons _ _ _ k Hk).
    destruct (t !! k) eqn:Ht; [apply IH|]. simpl.
    etrans; [|apply IH]. by apply insert_subseteq.
  - rewrite upsert_all_no_key by done. apply IH.
Qed.

Lemma upsert_all_dom ps (t : table) :
  dom (upsert_all ps t).1 = dom t ∪ keys ps.
Proof.
  revert t. induction ps as [|p ps IH]; intros t.
  - unfold keys. simpl. set_solver.
  - destruct (pkey p) as [k|] eqn:Hk.
    + rewrite (upsert_all_cons _ _ _ k Hk), (keys_cons _ _ k Hk).
      destruct (t !! k) eqn:Ht; simpl.
      * rewrite IH. apply elem_of_dom_2 in Ht. set_solver.
      * rewrite IH, dom_insert_L. set_solver.
    + rewrite upsert_all_no_key, keys_cons_no_key by done. apply IH.
Qed.

(** The count is the number of identifiers of the batch that the table did
    not hold. *)
Lemma upsert_all_count ps (t : table) :
  (upsert_all ps t).2 = size (keys ps ∖ dom t).
Proof.
  revert t. induction ps as [|p ps IH]; intros t.
  - unfold keys. simpl. by rewrite difference_disjoint_L, size_empty by set_solver.
  - destruct (pkey p) as [k|] eqn:Hk.
    + rewrite (upsert_all_cons _ _ _ k Hk), (keys_cons _ _ k Hk).
      destruct (t !! k) eqn:Ht; simpl.
      * rewrite IH. f_equal. apply elem_of_dom_2 in Ht. set_solver.
      * rewrite IH, dom_insert_L.
        apply not_elem_of_dom in Ht.
        replace (({[k]} ∪ keys ps) ∖ dom t)
          with ({[k]} ∪ keys ps ∖ ({[k]} ∪ dom t)).
        -- rewrite (size_union (C:=gset Z) {[k]}) by set_solver.
           by rewrite size_singleton.
        -- apply set_eq. intros x. rewrite !elem_of_union, !elem_of_difference,
             !elem_of_union, !elem_of_singleton.
           destruct (decide (x = k)) as [->|]; naive_solver.
    + rewrite upsert_all_no_key, keys_cons_no_key by done. apply IH.
Qed.

(** A batch all of whose identifiers are already stored changes nothing. *)
Lemma upsert_all_present ps (t : table) :
  keys ps ⊆ dom t → upsert_all ps t = (t, 0%nat).
Proof.
  revert t. induction ps as [|p ps IH]; intros t Hsub; [done|].
  destruct (pkey p) as [k|] eqn:Hk.
  - rewrite (keys_cons _ _ k Hk) in Hsub.
    rewrite (upsert_all_cons _ _ _ k Hk).
    assert (k ∈ dom t) as [q ->]%elem_of_dom by set_solver.
    apply IH. set_solver.
  - rewrite keys_cons_no_key in Hsub by done.
    rewrite upsert_all_no_key by done. by apply IH.
Qed.

(** The row stored for a new identifier is the first of the batch that
    carries it. *)
Lemma upsert_all_first ps (t : table) k :
  t !! k = None →
  (upsert_all ps t).1 !! k = first_with_key k ps.
Proof.
  revert t. unfold first_with_key.
  induction ps as [|p ps IH]; intros t Ht; [done|].
  destruct (pkey p) as [k'|] eqn:Hk.
  - rewrite (upsert_all_cons _ _ _ k' Hk).
    destruct (decide (k' = k)) as [->|Hne].
    + rewrite Ht, filter_cons_True by done. simpl.
      pose proof (upsert_all_subseteq ps (<[k := p]> t)) as Hsub.
      eapply lookup_weaken; [|apply Hsub]. apply lookup_insert_eq.
    + rewrite filter_cons_False by congruence.
      destruct (t !! k') eqn:Ht'; simpl; [by apply IH|].
      apply IH. by rewrite lookup_insert_ne.
  - rewrite upsert_all_no_key by done.
    rewrite filter_cons_False by congruence. by apply IH.
Qed.

(** ** The statements on an open connection *)

Lemma on_connection_run {A} (f : option table → result (A * option table))
    w v b g :
  conn w = Some (Conn v b g) →
  on_connection f w =
  match b with
  | Some O => (Raise OperationalError, w)
  | _ =>
      match f v with
      | OK (a, v') =>
          (OK a, World (plex_history w) (Some (Conn v' (Nat.pred <$> b) true))
                       (trace w))
      | Raise e =>
          (Raise e, World (plex_history w) (Some (Conn v (Nat.pred <$> b) true))
                          (trace w))
      end
  end.
Proof. intros Hc. unfold on_connection. rewrite Hc. simpl. by destruct b as [[|n]|]. Qed.

Lemma accepted_inv p row :
  accepted p = OK row →
  quote (InsertOnConflictDoNothing p) = OK () ∧ pg_row p = OK row
  ∧ is_Some (pkey row).
Proof.
  unfold accepted. destruct (quote _) as [[]|e]; [|done]. simpl.
  destruct (pg_row p) as [row'|e]; [|done]. simpl.
  destruct (pkey row') as [k|] eqn:Hk; [|done].
  intros [= <-]. eauto.
Qed.

Lemma accepted_keys ps rws :
  mapM accepted ps = OK rws → Forall (λ row, is_Some (pkey row)) rws.
Proof.
  revert rws. induction ps as [|p ps IH]; intros rws H; simpl in H.
  - injection H as <-. constructor.
  - destruct (accepted p) as [row|e] eqn:Hp; [|done]. simpl in H.
    destruct (mapM accepted ps) as [rws'|e]; [|done]. simpl in H.
    injection H as <-. constructor; [|by apply IH].
    by apply accepted_inv in Hp as (_ & _ & ?).
Qed.

(** An [INSERT] whose parameters are accepted. *)
Lemma execute_insert_accepted p row k w t b g :
  conn w = Some (Conn (Some t) b g) → b ≠ Some 0%nat →
  accepted p = OK row → pkey row = Some k →
  execute (InsertOnConflictDoNothing p) w
  = (OK (insert_on_conflict_do_nothing k row t).2,
     World (plex_history w)
           (Some (Conn (Some (insert_on_conflict_do_nothing k row t).1)
                       (Nat.pred <$> b) true))
           (trace w ++ [Execute (InsertOnConflictDoNothing p)])).
Proof.
  intros Hc Hb (Hq & Hrow & _)%accepted_inv Hk. unfold execute.
  rewrite bind_run, emit_run, bind_run, lift_run, Hq.
  rewrite (on_connection_run _ _ (Some t) b g) by done.
  rewrite Hrow. simpl. rewrite Hk.
  destruct (insert_on_conflict_do_nothing k row t) as [t' rc].
  by destruct b as [[|n]|].
Qed.

(** Any [INSERT]: it either goes through, its parameters being accepted,
    or raises and changes nothing that the connection sees. *)
Lemma execute_insert_cases p w t b g :
  conn w = Some (Conn (Some t) b g) →
  match execute (InsertOnConflictDoNothing p) w with
  | (OK rc, w') =>
      ∃ row k,
        accepted p = OK row ∧ pkey row = Some k
        ∧ rc = (insert_on_conflict_do_nothing k row t).2
        ∧ w' = World (plex_history w)
                     (Some (Conn (Some (insert_on_conflict_do_nothing k row t).1)
                                 (Nat.pred <$> b) true))
                     (trace w ++ [Execute (InsertOnConflictDoNothing p)])
  | (Raise e, w') =>
      plex_history w' = plex_history w
      ∧ trace w' = trace w ++ [Execute (InsertOnConflictDoNothing p)]
      ∧ ∃ b' g', conn w' = Some (Conn (Some t) b' g')
  end.
Proof.
  intros Hc. unfold execute, accepted.
  rewrite bind_run, emit_run, bind_run, lift_run.
  destruct (quote _) as [[]|e]; [|simpl; eauto].
  rewrite (on_connection_run _ _ (Some t) b g) by done.
  destruct b as [[|n]|]; simpl; eauto.
  all: destruct (pg_row p) as [row|e]; simpl; eauto.
  all: destruct (pkey row) as [k|] eqn:Hk; simpl; eauto.
  all: destruct (insert_on_conflict_do_nothing k row t) as [t' rc] eqn:Hi.
  all: exists row, k; by rewrite Hi.
Qed.

Lemma execute_create_run w v b g :
  conn w = Some (Conn v b g) →
  execute CreateTableIfNotExists w =
  let w1 := with_trace w [Execute CreateTableIfNotExists] in
  match b with
  | Some O => (Raise OperationalError, w1)
  | _ => (OK (-1), World (plex_history w)
                         (Some (Conn (Some (default ∅ v)) (Nat.pred <$> b) true))
                         (trace w1))
  end.
Proof.
  intros Hc. unfold execute. run.
  rewrite (on_connection_run _ _ v b g) by done.
  by destruct b as [[|n]|].
Qed.

(** [COMMIT] when a transaction has begun, and when none has. *)
Lemma commit_run w v b :
  conn w = Some (Conn v b true) →
  commit w =
  let w1 := with_trace w [Commit] in
  match b with
  | Some O => (Raise OperationalError, w1)
  | _ => (OK (), World v (Some (Conn v (Nat.pred <$> b) false)) (trace w1))
  end.
Proof.
  intros Hc. unfold commit, end_transaction. run. rewrite Hc. simpl.
  by destruct b as [[|n]|].
Qed.

Lemma commit_idle w v b :
  conn w = Some (Conn v b false) →
  commit w = (OK (), with_trace w [Commit]).
Proof.
  intros Hc. unfold commit, end_transaction. run. by rewrite Hc.
Qed.

Lemma with_connection_run {A} link (body : M A) w :
  with_connection link body w =
  match link with
  | Some O => (Raise OperationalError, with_trace w [Connect])
  | _ =>
      match body (World (plex_history w)
                        (Some (Conn (plex_history w) (Nat.pred <$> link) false))
                        (trace w ++ [Connect])) with
      | (r, w') => (r, World (plex_history w') None (trace w' ++ [Close]))
      end
  end.
Proof.
  unfold with_connection, connect, finally, close. run.
  destruct link as [[|n]|]; run; try done;
    by destruct (body _) as [[a|e] w'].
Qed.

(** The loop of lines 90-108 on an open connection that sees the table
    [t]: if it gets through, every row yielded parameters that were
    accepted, the connection sees [upsert_all] of the rows they stand
    for, and one statement per row was sent; in any case the committed
    relation is untouched. *)
Lemma insert_rows_spec rs count w t b g :
  conn w = Some (Conn (Some t) b g) →
  match insert_rows rs count w with
  | (OK c, w') =>
      ∃ ps rws b',
        mapM bind_params rs = OK ps
        ∧ mapM accepted ps = OK rws
        ∧ c = (count + (upsert_all rws t).2)%nat
        ∧ w' = World (plex_history w)
                     (Some (Conn (Some (upsert_all rws t).1) b'
                                 (match ps with [] => g | _ => true end)))
                     (trace w ++ inserts ps)
  | (Raise e, w') => plex_history w' = plex_history w
  end.
Proof.
  revert count w t b g. induction rs as [|row rs IH]; intros count w t b g Hc.
  - simpl. exists [], [], b. destruct w; unfold inserts; simpl in *.
    rewrite app_nil_r, Nat.add_0_r. by subst.
  - simpl. run. destruct (bind_params row) as [p|e] eqn:Hp; [|done].
    run.
    pose proof (execute_insert_cases p w t b g Hc) as Hx.
    destruct (execute _ w) as [[rc|e] w1]; [|by destruct Hx].
    destruct Hx as (r & k & Hacc & Hk & -> & ->).
    match goal with
    | |- context [insert_rows rs ?c ?w1] =>
        specialize (IH c w1 _ _ _ eq_refl);
        destruct (insert_rows rs c w1) as [[c'|e] w']
    end; [|done].
    destruct IH as (ps & rws & b' & Hps & Hrws & -> & ->).
    exists (p :: ps), (r :: rws), b'. unfold inserts. simpl.
    rewrite Hps, Hacc, Hrws, Hk. simpl.
    repeat split.
    + destruct (insert_on_conflict_do_nothing k r t) as [t1 rc]; simpl.
      destruct (upsert_all rws t1) as [t2 m]; simpl.
      destruct (0 <? rc); lia.
    + destruct (insert_on_conflict_do_nothing k r t) as [t1 rc]; simpl.
      destruct (upsert_all rws t1) as [t2 m]; simpl.
      rewrite <- app_assoc. simpl. by destruct ps.
Qed.

(** With a connection that never drops the loop gets through whenever
    every row yields parameters that are accepted. *)
Lemma insert_rows_completes rs ps rws count w t g :
  conn w = Some (Conn (Some t) None g) →
  mapM bind_params rs = OK ps →
  mapM accepted ps = OK rws →
  insert_rows rs count w
  = (OK (count + (upsert_all rws t).2)%nat,
     World (plex_history w)
           (Some (Conn (Some (upsert_all rws t).1) None
                       (match ps with [] => g | _ => true end)))
           (trace w ++ inserts ps)).
Proof.
  revert ps rws count w t g.
  induction rs as [|row rs IH]; intros ps rws count w t g Hc Hps Hrws.
  - simpl in Hps. injection Hps as <-. simpl in Hrws. injection Hrws as <-.
    destruct w; simpl in *.
    unfold inserts. simpl. rewrite app_nil_r, Nat.add_0_r. by subst.
  - simpl in Hps. destruct (bind_params row) as [p|e] eqn:Hp; [|done].
    simpl in Hps. destruct (mapM bind_params rs) as [ps'|e] eqn:Hps'; [|done].
    simpl in Hps. injection Hps as <-.
    simpl in Hrws. destruct (accepted p) as [r|e] eqn:Hacc; [|done].
    simpl in Hrws. destruct (mapM accepted ps') as [rws'|e] eqn:Hrws'; [|done].
    simpl in Hrws. injection Hrws as <-.
    destruct (accepted_inv p r Hacc) as (_ & _ & [k Hk]).
    simpl. run. rewrite Hp. run.
    rewrite (execute_insert_accepted p r k w t None g Hc) by done. simpl.
    match goal with
    | |- context [insert_rows rs ?c ?w1] =>
        rewrite (IH ps' rws' c w1 _ _ eq_refl eq_refl Hrws')
    end.
    unfold inserts. simpl. rewrite <- app_assoc. simpl. rewrite Hk.
    destruct (insert_on_conflict_do_nothing k r t) as [t1 rc]; simpl.
    destruct (upsert_all rws' t1) as [t2 m]; simpl.
    f_equal; [|by destruct ps']. f_equal. destruct (0 <? rc); lia.
Qed.

(** Lines 88-111 on a connection that never drops and has nothing
    uncommitted. *)
Lemma write_healthy df ps rws w t g :
  conn w = Some (Conn (Some t) None g) → plex_history w = Some t →
  mapM bind_params (rows df) = OK ps →
  mapM accepted ps = OK rws →
  write df w
  = (OK (upsert_all rws t).2,
     World (Some (upsert_all rws t).1)
           (Some (Conn (Some (upsert_all rws t).1) None false))
           (trace w ++ inserts ps
              ++ [Commit; Log INFO (Inserted (upsert_all rws t).2)])).
Proof.
  intros Hc Hp Hps Hrws. unfold write.
  rewrite bind_run, (insert_rows_completes _ ps rws 0 w t g Hc Hps Hrws).
  rewrite bind_run.
  destruct ps as [|p ps]; [destruct g|].
  2:{ simpl in Hrws. injection Hrws as <-.
      match goal with
      | |- context [commit ?w1] => rewrite (commit_idle w1 _ _ eq_refl)
      end. run. unfold with_trace, inserts. simpl. rewrite Hp.
      by rewrite <- !app_assoc. }
  all: match goal with
       | |- context [commit ?w1] => rewrite (commit_run w1 _ _ eq_refl)
       end; run; unfold with_trace; simpl; by rewrite <- !app_assoc.
Qed.

(** Lines 88-111 on an open connection that has nothing uncommitted and
    sees the table [t]. *)
Lemma write_spec df w t b g :
  conn w = Some (Conn (Some t) b g) → plex_history w = Some t →
  match write df w with
  | (OK c, w') =>
      ∃ ps rws b',
        mapM bind_params (rows df) = OK ps
        ∧ mapM accepted ps = OK rws
        ∧ c = (upsert_all rws t).2
        ∧ w' = World (Some (upsert_all rws t).1)
                     (Some (Conn (Some (upsert_all rws t).1) b' false))
                     (trace w ++ inserts ps ++ [Commit; Log INFO (Inserted c)])
  | (Raise e, w') => plex_history w' = plex_history w
  end.
Proof.
  intros Hc Hp. unfold write. run.
  pose proof (insert_rows_spec (rows df) 0 w t b g Hc) as H.
  destruct (insert_rows _ _ _) as [[c|e] w1]; [|done].
  destruct H as (ps & rws & b' & Hps & Hrws & -> & ->). run.
  destruct ps as [|p ps]; [destruct g|].
  2:{ simpl in Hrws. injection Hrws as <-.
      match goal with
      | |- context [commit ?w1] => rewrite (commit_idle w1 _ _ eq_refl)
      end. run. exists [], [], b'. unfold with_trace, inserts. simpl.
      rewrite Hp. by rewrite <- !app_assoc. }
  all: match goal with
       | |- context [commit ?w1] => rewrite (commit_run w1 _ _ eq_refl)
       end.
  all: destruct b' as [[|n]|]; run; try done.
  all: eexists _, rws, _; unfold with_trace; simpl; rewrite <- !app_assoc; done.
Qed.

(** Lines 67-80 on a connection that holds long enough. *)
Lemma load_run link df w :
  load link df w =
  match link with
  | Some O => (Raise OperationalError, with_trace w [Connect])
  | Some (S O) =>
      (Raise OperationalError,
       World (plex_history w) None
             (trace w ++ [Connect; Execute CreateTableIfNotExists; Close]))
  | Some (S (S O)) =>
      (Raise OperationalError,
       World (plex_history w) None
             (trace w ++ [Connect; Execute CreateTableIfNotExists; Commit;
                          Close]))
  | _ =>
      let b := Nat.pred <$> (Nat.pred <$> (Nat.pred <$> link)) in
      let w1 := World (Some (stored w))
                      (Some (Conn (Some (stored w)) b false))
                      (trace w ++ [Connect; Execute CreateTableIfNotExists;
                                   Commit]) in
      match clean df with
      | OK df' =>
          match write df' w1 with
          | (r, w2) => (r, World (plex_history w2) None (trace w2 ++ [Close]))
          end
      | Raise e => (Raise e, World (Some (stored w)) None (trace w1 ++ [Close]))
      end
  end.
Proof.
  unfold load. rewrite with_connection_run.
  destruct link as [[|[|[|n]]]|]; [done|..].
  all: rewrite bind_run;
    match goal with
    | |- context [execute CreateTableIfNotExists ?w1] =>
        rewrite (execute_create_run w1 _ _ _ eq_refl)
    end; simpl; try (by rewrite <- !app_assoc).
  all: rewrite bind_run;
    match goal with
    | |- context [commit ?w1] => rewrite (commit_run w1 _ _ eq_refl)
    end; simpl; try (by rewrite <- !app_assoc).
  all: rewrite bind_run, lift_run, <- !app_assoc; simpl.
  all: unfold stored; destruct (clean df); simpl; [done|].
  all: by rewrite <- !app_assoc.
Qed.

Lemma load_spec link df w :
  match load link df w with
  | (OK c, w') =>
      ∃ df' ps rws,
        clean df = OK df'
        ∧ mapM bind_params (rows df') = OK ps
        ∧ mapM accepted ps = OK rws
        ∧ c = (upsert_all rws (stored w)).2
        ∧ w' = World (Some (upsert_all rws (stored w)).1) None
                     (trace w ++ [Connect; Execute CreateTableIfNotExists; Commit]
                        ++ inserts ps
                        ++ [Commit; Log INFO (Inserted c); Close])
  | (Raise e, w') => stored w' = stored w
  end.
Proof.
  rewrite load_run.
  destruct link as [[|[|[|n]]]|]; try done.
  all: simpl; destruct (clean df) as [df'|e]; [|done].
  all: match goal with
       | |- context [write ?d ?w1] =>
           pose proof (write_spec d w1 _ _ _ eq_refl eq_refl) as H;
           destruct (write d w1) as [[c|e] w2]
       end; [|by unfold stored; simpl; rewrite H].
  all: destruct H as (ps & rws & b' & Hps & Hrws & -> & ->).
  all: exists df', ps, rws; simpl; repeat (split; [done|]).
  all: rewrite <- ?app_assoc; simpl; by rewrite <- ?app_assoc.
Qed.

(** On a connection that never drops the load gets through whenever the
    frame can be cleaned and every row yields parameters that are
    accepted. *)
Lemma load_completes df df' ps rws w :
  clean df = OK df' →
  mapM bind_params (rows df') = OK ps →
  mapM accepted ps = OK rws →
  (load None df w).1 = OK (upsert_all rws (stored w)).2.
Proof.
  intros Hclean Hps Hrws. rewrite load_run. simpl. rewrite Hclean.
  match goal with
  | |- context [write df' ?w1] =>
      rewrite (write_healthy df' ps rws w1 (stored w) false eq_refl eq_refl
                 Hps Hrws)
  end. done.
Qed.

(** ** What reaches the committed relation *)

Lemma stored_with_trace w evs : stored (with_trace w evs) = stored w.
Proof. reflexivity. Qed.

Lemma load_stored link df w : stored w ⊆ stored (load link df w).2.
Proof.
  pose proof (load_spec link df w) as H.
  destruct (load link df w) as [[c|e] w']; simpl.
  - destruct H as (df' & ps & rws & _ & _ & _ & _ & ->).
    apply upsert_all_subseteq.
  - by rewrite H.
Qed.

Lemma after_fetch_stored data link w :
  stored w ⊆ stored (after_fetch data link w).2.
Proof.
  unfold after_fetch. rewrite bind_run, lift_run.
  destruct (history_of data) as [history_data|e]; [|done].
  case_bool_decide; [done|].
  rewrite bind_run, log_run, bind_run, lift_run.
  destruct (transform _) as [df|e]; [|done].
  rewrite bind_run, log_run, bind_run.
  pose proof (load_stored link df
                (with_trace (with_trace w [Log INFO (Fetched (length (rows (pd_DataFrame history_data))))])
                            [Log INFO (Processing (length (rows df)))])) as Hl.
  by destruct (load link df _) as [[c|e] w'].
Qed.

Lemma fetch_history_stored net link w :
  stored w ⊆ stored (fetch_history net link w).2.
Proof.
  rewrite fetch_history_run. destruct (fetched net) as [e|data]; [done|].
  apply (after_fetch_stored data link (with_trace w _)).
Qed.

Lemma pass_stored c w : stored w ⊆ stored (pass c w).2.
Proof.
  rewrite pass_run.
  pose proof (fetch_history_stored (net c) (link c)
                (with_trace w [Log INFO StartingJob])) as H.
  by destruct (fetch_history _ _ _) as [[[]|e] w'].
Qed.

Lemma loop_stored cs w : stored w ⊆ stored (loop cs w).2.
Proof.
  revert w. induction cs as [|c cs IH]; intros w; [done|].
  simpl. rewrite bind_run.
  pose proof (pass_stored c w) as H.
  destruct (pass c w) as [[[]|e] w']; simpl in *; [|done].
  etrans; [apply H|apply IH].
Qed.

Lemma well_typed_accepted p : well_typed p = true → accepted p = OK p.
Proof.
  destruct p as [k c1 c2 c3 c4 c5 c6 c7]. unfold well_typed. simpl.
  rewrite !andb_true_iff. intros [[[[[[[Hk H1] H2] H3] H4] H5] H6] H7].
  destruct k as [| | |k| | | |]; try done.
  assert (∀ c, text_cell c = true → has_nul c = false ∧ literal TEXT c = OK c)
    as Htext.
  { intros [| | | | |s| |]; try done. simpl.
    by intros ->%negb_true_iff. }
  destruct (Htext _ H2) as [H2a H2b], (Htext _ H3) as [H3a H3b],
    (Htext _ H4) as [H4a H4b], (Htext _ H6) as [H6a H6b],
    (Htext _ H7) as [H7a H7b].
  assert (has_nul c1 = false ∧ literal TIMESTAMP c1 = OK c1) as [H1a H1b]
    by (by destruct c1).
  assert (has_nul c5 = false ∧ literal INT c5 = OK c5 ∧ assign INT c5 = OK c5)
    as (H5a & H5b & H5c).
  { destruct c5 as [| | |d| | | |]; try done. simpl in *. by rewrite H5. }
  unfold accepted, quote, pg_row.
  cbn [ref_id watched name title type dur ip plat existsb].
  rewrite H1a, H2a, H3a, H4a, H5a, H6a, H7a.
  rewrite H1b, H2b, H3b, H4b, H5b, H6b, H7b.
  cbn [has_nul orb mbind result_bind literal].
  rewrite H5c. cbn [mbind result_bind assign]. rewrite Hk. done.
Qed.

Lemma well_typed_all_accepted ps :
  Forall (λ p, well_typed p = true) ps → mapM accepted ps = OK ps.
Proof.
  induction 1 as [|p ps Hp _ IH]; [done|]. simpl.
  by rewrite (well_typed_accepted p Hp), IH.
Qed.

(** C9, as amended.  An [INSERT ... ON CONFLICT DO NOTHING] whose
    parameters the columns accept, for a key the table holds, leaves the
    table as it is and reports no row, without raising; an [INSERT] that
    raises, for whatever reason, changes nothing either; parameters that
    hold what the columns hold (a 32-bit key, a timestamp, text, a 32-bit
    duration, or nulls outside the key) are accepted; and whatever the
    network and the store's connection do, every row stored before a call
    of [fetch_history], or before any number of passes of the main loop,
    is stored unchanged after it. *)
Theorem C9_rows_are_only_ever_created :
  (∀ w (t : table) b g k p row q,
     conn w = Some (Conn (Some t) b g) → b ≠ Some 0%nat →
     accepted p = OK row → pkey row = Some k → t !! k = Some q →
     execute (InsertOnConflictDoNothing p) w
     = (OK 0, World (plex_history w)
                    (Some (Conn (Some t) (Nat.pred <$> b) true))
                    (trace w ++ [Execute (InsertOnConflictDoNothing p)])))
  ∧ (∀ w (t : table) b g p e w',
       conn w = Some (Conn (Some t) b g) →
       execute (InsertOnConflictDoNothing p) w = (Raise e, w') →
       plex_history w' = plex_history w
       ∧ ∃ b' g', conn w' = Some (Conn (Some t) b' g'))
  ∧ (∀ p, well_typed p = true → accepted p = OK p)
  ∧ (∀ net link w k q,
       stored w !! k = Some q →
       stored (fetch_history net link w).2 !! k = Some q)
  ∧ (∀ cs w k q,
       stored w !! k = Some q → stored (main cs w).2 !! k = Some q).
Proof.
  split; [|split; [|split; [|split]]].
  - intros w t b g k p row q Hc Hb Hacc Hk Hq.
    rewrite (execute_insert_accepted p row k w t b g Hc Hb Hacc Hk).
    by rewrite insert_on_conflict_taken by eauto.
  - intros w t b g p e w' Hc He.
    pose proof (execute_insert_cases p w t b g Hc) as Hx.
    rewrite He in Hx. tauto.
  - apply well_typed_accepted.
  - intros net link w k q Hq.
    eapply lookup_weaken; [exact Hq|apply fetch_history_stored].
  - intros cs w k q Hq. unfold main. rewrite bind_run, log_run.
    eapply lookup_weaken; [exact Hq|].
    apply (loop_stored cs (with_trace w _)).
Qed.

Lemma C9_witness :
  let t : table := {[1 := stored_item 1]} in
  let w := World (Some t) (Some (Conn (Some t) None false)) [] in
  let p := <["platform" := VStr "Web"]> (item (VInt 1)) in
  execute (InsertOnConflictDoNothing (row_of_record p)) w
  = (OK 0, World (Some t) (Some (Conn (Some t) None true))
                 [Execute (InsertOnConflictDoNothing (row_of_record p))])
  ∧ stored (fetch_history (answer [p; item (VInt 2)]) None
              (World (Some t) None [])).2 !! 1
    = Some (stored_item 1).
Proof.
  intros t w p.
  destruct C9_rows_are_only_ever_created as (H2 & _ & _ & H5 & _).
  split.
  - apply (H2 w t None false 1 (row_of_record p) (row_of_record p)
              (stored_item 1)); done.
  - apply H5. reflexivity.
Defined.

(** C9 as stated fails: the key 1 is stored, yet the [INSERT] for a record
    with that key and a null date raises, because [NaT] is no timestamp
    for PostgreSQL; and so does the cycle that brings this record. *)
Lemma C9_stored_key_still_raises :
  let t : table := {[1 := stored_item 1]} in
  let p := Params (CInt 1) CNaT (CStr "ann") (CStr "Alien") (CStr "movie")
                  (CInt 7020) (CStr "10.0.0.2") (CStr "Roku") in
  (execute (InsertOnConflictDoNothing p)
           (World (Some t) (Some (Conn (Some t) None false)) [])).1
  = Raise DataError
  ∧ (fetch_history (answer [<["date" := VNull]> (item (VInt 1))]) None
                   (World (Some t) None [])).1
    = Raise DataError.
Proof. split; vm_compute; reflexivity. Qed.

(** C2.  Once a frame has been written by [load], writing the same frame
    again leaves the stored rows exactly as the first pass left them,
    whatever the connection does during the second pass; a second pass
    that gets through reports 0 new rows, and on a connection that holds
    it does get through, ending with the log line for 0 new rows. *)
Theorem C2_second_upsert_changes_nothing (df : DataFrame) (link : option nat)
    (w w1 : world) (c : nat) :
  load link df w = (OK c, w1) →
  (∀ link',
     stored (load link' df w1).2 = stored w1
     ∧ ∀ c', (load link' df w1).1 = OK c' → c' = 0%nat)
  ∧ ∃ w2 evs,
      load None df w1 = (OK 0%nat, w2)
      ∧ plex_history w2 = plex_history w1
      ∧ trace w2 = trace w1 ++ evs ++ [Log INFO (Inserted 0); Close].
Proof.
  intros H1.
  pose proof (load_spec link df w) as Hs. rewrite H1 in Hs.
  destruct Hs as (df' & ps & rws & Hclean & Hps & Hrws & _ & Hw1).
  pose proof (accepted_keys ps rws Hrws) as Hkeys.
  set (t1 := (upsert_all rws (stored w)).1) in *.
  assert (stored w1 = t1) as Hst by (by rewrite Hw1).
  assert (upsert_all rws t1 = (t1, 0%nat)) as Hagain.
  { apply upsert_all_present. unfold t1. rewrite upsert_all_dom. set_solver. }
  assert (∀ link' c' w2, load link' df w1 = (OK c', w2) →
            c' = 0%nat ∧ plex_history w2 = Some t1
            ∧ trace w2 = trace w1
                ++ ([Connect; Execute CreateTableIfNotExists; Commit]
                      ++ inserts ps ++ [Commit])
                ++ [Log INFO (Inserted 0); Close]) as Hok.
  { intros link' c' w2 H2.
    pose proof (load_spec link' df w1) as Hs. rewrite H2 in Hs.
    destruct Hs as (df'' & ps' & rws' & Hclean' & Hps' & Hrws' & -> & ->).
    rewrite Hclean in Hclean'. injection Hclean' as <-.
    rewrite Hps in Hps'. injection Hps' as <-.
    rewrite Hrws in Hrws'. injection Hrws' as <-.
    rewrite Hst, Hagain. simpl. repeat split.
    do 4 f_equal. by rewrite <- app_assoc. }
  split.
  - intros link'. pose proof (load_spec link' df w1) as Hs.
    destruct (load link' df w1) as [[c'|e] w2] eqn:H2; simpl.
    + destruct (Hok _ _ _ H2) as (-> & Hp & _).
      split; [|by intros ? [= <-]].
      unfold stored at 1. by rewrite Hp, Hst.
    + split; [done|]. by intros.
  - pose proof (load_completes df df' ps rws w1 Hclean Hps Hrws) as Hc.
    rewrite Hst, Hagain in Hc. simpl in Hc.
    destruct (load None df w1) as [r w2] eqn:H2. simpl in Hc. subst r.
    destruct (Hok _ _ _ H2) as (_ & Hp & Ht).
    exists w2. eexists. split; [done|]. split; [|exact Ht].
    rewrite Hp, Hw1. done.
Qed.

Lemma C2_witness :
  let df := value_or (Frame [] [])
              (transform (pd_DataFrame [item (VInt 1); item (VInt 2)])) in
  let first := load None df blank in
  first.1 = OK 2%nat
  ∧ ∃ w2 evs,
      load None df first.2 = (OK 0%nat, w2)
      ∧ plex_history w2 = plex_history first.2
      ∧ trace w2 = trace first.2 ++ evs ++ [Log INFO (Inserted 0); Close].
Proof.
  intros df first. split; [vm_compute; reflexivity|].
  refine (proj2 (C2_second_upsert_changes_nothing df None blank first.2 2 _)).
  vm_compute. reflexivity.
Defined.

(** C10.  When lines 88-111 get through on a connection that has nothing
    uncommitted and sees the table [t], every row of the frame yielded
    parameters the columns accepted, one [INSERT] per row was sent, and
    then the commit and the report of the count; the committed table
    holds, for every key the table did not have, the first row of the
    batch that carries it, and keeps every row it had; the count that is
    reported is the number of distinct keys of the batch that were new,
    hence at most the number of distinct keys of the batch.  On a
    connection that holds, the write does get through when every row
    yields parameters that are accepted, as those are that hold what the
    columns hold. *)
Theorem C10_one_row_per_key (df : DataFrame) (w : world) (t : table)
    (b : option nat) (g : bool) :
  conn w = Some (Conn (Some t) b g) → plex_history w = Some t →
  (∀ count w',
     write df w = (OK count, w') →
     ∃ ps rws (t' : table),
       mapM bind_params (rows df) = OK ps
       ∧ mapM accepted ps = OK rws
       ∧ plex_history w' = Some t'
       ∧ trace w' = trace w ++ inserts ps
                      ++ [Commit; Log INFO (Inserted count)]
       ∧ (∀ k, t !! k = None → t' !! k = first_with_key k rws)
       ∧ (∀ k q, t !! k = Some q → t' !! k = Some q)
       ∧ count = size (keys rws ∖ dom t)
       ∧ (count ≤ size (keys rws))%nat)
  ∧ (∀ ps rws,
       b = None → mapM bind_params (rows df) = OK ps →
       mapM accepted ps = OK rws →
       ∃ w', write df w = (OK (size (keys rws ∖ dom t)), w')
             ∧ trace w' = trace w ++ inserts ps
                            ++ [Commit;
                                Log INFO (Inserted (size (keys rws ∖ dom t)))])
  ∧ (∀ ps, Forall (λ p, well_typed p = true) ps → mapM accepted ps = OK ps).
Proof.
  intros Hc Hp. split; [|split].
  - intros count w' Hw.
    pose proof (write_spec df w t b g Hc Hp) as Hs. rewrite Hw in Hs.
    destruct Hs as (ps & rws & b' & Hps & Hrws & -> & ->).
    pose proof (accepted_keys ps rws Hrws) as Hkeys.
    exists ps, rws, (upsert_all rws t).1. repeat split; try done.
    + intros k Hk. by apply upsert_all_first.
    + intros k q Hq. eapply lookup_weaken; [exact Hq|apply upsert_all_subseteq].
    + apply upsert_all_count.
    + rewrite upsert_all_count. apply subseteq_size. set_solver.
  - intros ps rws -> Hps Hrws.
    rewrite (write_healthy df ps rws w t g Hc Hp Hps Hrws).
    rewrite upsert_all_count. eauto.
  - apply well_typed_all_accepted.
Qed.

Lemma C10_witness :
  let w := World (Some ∅) (Some (Conn (Some ∅) None false)) [] in
  let df := value_or (Frame [] [])
              (normalize [item (VInt 5); item (VInt 6);
                          <["platform" := VStr "Web"]> (item (VInt 5))]) in
  (write df w).1 = OK 2%nat
  ∧ ∃ ps rws (t' : table),
      mapM bind_params (rows df) = OK ps
      ∧ mapM accepted ps = OK rws
      ∧ plex_history (write df w).2 = Some t'
      ∧ trace (write df w).2
        = trace w ++ inserts ps ++ [Commit; Log INFO (Inserted 2)]
      ∧ (∀ k, (∅ : table) !! k = None → t' !! k = first_with_key k rws)
      ∧ (∀ k q, (∅ : table) !! k = Some q → t' !! k = Some q)
      ∧ 2%nat = size (keys rws ∖ dom (∅ : table))
      ∧ (2 ≤ size (keys rws))%nat.
Proof.
  intros w df. split; [vm_compute; reflexivity|].
  refine (proj1 (C10_one_row_per_key df w ∅ None false eq_refl eq_refl) 2%nat _ _).
  vm_compute. reflexivity.
Defined.

Section mapM_result.
Context {A B : Type} (f : A → result B) (d : B).

Lemma mapM_OK_inv l ys :
  mapM f l = OK ys →
  ys = (λ x, value_or d (f x)) <$> l ∧ Forall (λ x, is_OK (f x) = true) l.
Proof.
  revert ys. induction l as [|x l IH]; intros ys H; simpl in H.
  - by injection H as <-.
  - destruct (f x) as [y|e] eqn:Hx; [|done]. simpl in H.
    destruct (mapM f l) as [ys'|e] eqn:Hl; [|done]. simpl in H.
    injection H as <-. destruct (IH _ eq_refl) as [-> HF].
    split; [by simpl; rewrite Hx|]. constructor; [by rewrite Hx|done].
Qed.

Lemma mapM_OK l :
  Forall (λ x, is_OK (f x) = true) l →
  mapM f l = OK ((λ x, value_or d (f x)) <$> l).
Proof.
  induction 1 as [|x l Hx _ IH]; [done|]. simpl.
  destruct (f x) as [y|e]; [|done]. simpl. by rewrite IH.
Qed.

End mapM_result.

Lemma zip_with_fmap_diag {A B C} (g : A → B → C) (h : A → B) (l : list A) :
  zip_with g l (h <$> l) = (λ x, g x (h x)) <$> l.
Proof. induction l as [|x l IH]; [done|]. simpl. f_equal. exact IH. Qed.

Lemma filter_fmap_comm {A B} (f : A → B) (P : B → Prop) (Q : A → Prop)
    `{∀ y, Decision (P y)} `{∀ x, Decision (Q x)} (l : list A) :
  (∀ x, x ∈ l → P (f x) ↔ Q x) →
  filter P (f <$> l) = f <$> filter Q l.
Proof.
  induction l as [|x l IH]; intros HPQ; [done|]. rewrite fmap_cons.
  assert (P (f x) ↔ Q x) as Hx by (apply HPQ; left).
  assert (filter P (f <$> l) = f <$> filter Q l) as IH'
    by (apply IH; intros; apply HPQ; by right).
  destruct (decide (Q x)) as [HQ|HQ].
  - rewrite (filter_cons_True Q) by done.
    rewrite (filter_cons_True P) by (by apply Hx).
    by rewrite fmap_cons, IH'.
  - rewrite (filter_cons_False Q) by done.
    rewrite (filter_cons_False P) by (by rewrite Hx). done.
Qed.

(** *** Columns of integers with gaps *)

(** An integer of at most 53 bits, shifted or not, is a float. *)
Lemma float_of_int_shift m j :
  Z.abs m < 2 ^ 53 → 0 ≤ j → float_of_int (m * 2 ^ j) = m * 2 ^ j.
Proof.
  intros Hm Hj. unfold float_of_int.
  destruct (decide (m = 0)) as [->|Hm0]; [done|].
  assert (0 < 2 ^ j) as Hpow by (by apply Z.pow_pos_nonneg).
  rewrite Z.abs_mul, (Z.abs_eq (2 ^ j)) by lia.
  rewrite Z.log2_mul_pow2 by lia.
  assert (Z.log2 (Z.abs m) < 53) as Hlog
    by (apply Z.log2_lt_pow2; lia).
  set (e := j + Z.log2 (Z.abs m) - 52).
  destruct (e <=? 0) eqn:He; [done|]. apply Z.leb_gt in He.
  assert (2 ^ j = 2 ^ (j - e) * 2 ^ e) as Hsplit
    by (rewrite <- Z.pow_add_r by lia; f_equal; lia).
  assert (0 < 2 ^ e) as Hpe by (apply Z.pow_pos_nonneg; lia).
  assert (Z.abs m * 2 ^ j = (Z.abs m * 2 ^ (j - e)) * 2 ^ e) as Ha
    by (rewrite Hsplit; ring).
  rewrite Ha, Z.mod_mul, Z.div_mul by lia.
  assert (0 < 2 ^ (e - 1)) as Hhalf by (apply Z.pow_pos_nonneg; lia).
  replace (2 ^ (e - 1) <? 0) with false by (symmetry; apply Z.ltb_ge; lia).
  replace (0 =? 2 ^ (e - 1)) with false by (symmetry; apply Z.eqb_neq; lia).
  simpl. rewrite <- Ha, Z.sgn_mul, (Z.sgn_pos (2 ^ j)) by done.
  rewrite Z.mul_1_r, Z.mul_assoc. f_equal. lia.
Qed.

Lemma float_of_int_exact n : Z.abs n ≤ 2 ^ 53 → float_of_int n = n.
Proof.
  intros Hn. destruct (decide (Z.abs n = 2 ^ 53)) as [Heq|Hne].
  - destruct (Z.abs_spec n) as [[_ H]|[_ H]]; rewrite H in Heq.
    + by subst n.
    + assert (n = - 2 ^ 53) as -> by lia. done.
  - rewrite <- (Z.mul_1_r n) at 1. change 1 with (2 ^ 0) at 1.
    rewrite float_of_int_shift by lia. lia.
Qed.

Lemma in_bounds_spec n :
  in_bounds n = true ↔ - 9223372036 ≤ n ≤ 9223372036.
Proof.
  unfold in_bounds, int64_max, ns_per_second.
  rewrite andb_true_iff, !Z.leb_le. lia.
Qed.

Lemma to_datetime_seconds n :
  in_bounds n = true →
  to_datetime (CInt n) = OK (CTimestamp (n * ns_per_second)).
Proof.
  intros Hn. simpl. unfold timestamp_of_seconds. rewrite Hn.
  apply in_bounds_spec in Hn.
  replace (n =? - int64_max - 1) with false; [done|].
  symmetry. apply Z.eqb_neq. unfold int64_max. lia.
Qed.

(** A date that converts as an integer converts alike as a float. *)
Lemma to_datetime_float_of_int n :
  is_OK (to_datetime (CInt n)) = true →
  to_datetime (CFloat (float_of_int n)) = to_datetime (CInt n).
Proof.
  simpl. destruct (n =? - int64_max - 1) eqn:Hmin.
  - apply Z.eqb_eq in Hmin as ->. intros _. vm_compute. reflexivity.
  - intros Hok.
    assert (in_bounds n = true) as Hn
      by (unfold timestamp_of_seconds in Hok; by destruct (in_bounds n)).
    apply in_bounds_spec in Hn.
    rewrite float_of_int_exact by lia. by rewrite Hmin.
Qed.

Lemma float64_column_elem vs v :
  float64_column vs = true → v ∈ vs →
  v = CNone ∨ v = CNaN ∨ ∃ n, v = CInt n ∧ is_int64 n = true.
Proof.
  unfold float64_column. rewrite !andb_true_iff, forallb_forall.
  intros [[Hall _] _] Hv. apply list_elem_of_In, Hall in Hv.
  destruct v; try done; eauto.
Qed.

Lemma isna_convert vs v : isna (convert vs v) = isna v.
Proof. unfold convert. destruct (float64_column vs); [|done]. by destruct v. Qed.

Lemma isna_frame_cell h c r : isna (frame_cell h c r) = isna (entry c r).
Proof. apply isna_convert. Qed.


Lemma frame_cell_object h c r :
  float64_column (entry c <$> h) = false → frame_cell h c r = entry c r.
Proof. intros Hf. unfold frame_cell, convert. by rewrite Hf. Qed.

(** What converts as it was given converts as the frame holds it. *)
Lemma int_of_frame_cell h c r :
  r ∈ h → is_OK (int_of_cell (entry c r)) = true →
  is_OK (int_of_cell (frame_cell h c r)) = true.
Proof.
  intros Hr Hok. unfold frame_cell, convert.
  destruct (float64_column (entry c <$> h)) eqn:Hf; [|done].
  destruct (float64_column_elem _ (entry c r) Hf) as [He|[He|(n & He & Hn)]].
  - by apply list_elem_of_fmap_2.
  - by rewrite He in Hok.
  - by rewrite He in Hok.
  - by rewrite He.
Qed.

Lemma to_datetime_frame_cell h c r :
  r ∈ h → is_OK (to_datetime (entry c r)) = true →
  is_OK (to_datetime (frame_cell h c r)) = true.
Proof.
  intros Hr Hok. unfold frame_cell, convert.
  destruct (float64_column (entry c <$> h)) eqn:Hf; [|done].
  destruct (float64_column_elem _ (entry c r) Hf) as [He|[He|(n & He & Hn)]].
  - by apply list_elem_of_fmap_2.
  - by rewrite He.
  - by rewrite He.
  - rewrite He in Hok |- *. by rewrite to_datetime_float_of_int.
Qed.

(** A batch of one record has no column with gaps between integers. *)
Lemma frame_cell_singleton c r : frame_cell [r] c r = entry c r.
Proof.
  unfold frame_cell, convert, float64_column. simpl.
  by destruct (entry c r) as [| | |n| | | |]; simpl;
    rewrite ?andb_false_r.
Qed.

(** *** Rows of the frames *)

Lemma elem_of_all_keys c (h : list raw_record) :
  c ∈ all_keys h ↔ ∃ r, r ∈ h ∧ is_Some (r !! c).
Proof.
  unfold all_keys. rewrite elem_of_union_list. split.
  - intros (X & HX & Hc). apply list_elem_of_fmap in HX as (r & -> & Hr).
    exists r. split; [done|]. by apply elem_of_dom.
  - intros (r & Hr & Hc). exists (dom r). split.
    + by apply list_elem_of_fmap_2.
    + by apply elem_of_dom.
Qed.

Lemma elem_of_kept c h : c ∈ kept h ↔ c ∈ cols ∧ c ∈ all_keys h.
Proof.
  unfold kept. rewrite list_elem_of_filter, elem_of_elements. tauto.
Qed.

Lemma lookup_kept_row h r c :
  kept_row h r !! c =
  if decide (c ∈ kept h) then Some (frame_cell h c r) else None.
Proof.
  unfold kept_row. rewrite map_lookup_filter.
  rewrite map_lookup_imap, lookup_gset_to_gmap.
  destruct (decide (c ∈ kept h)) as [Hc|Hc].
  - pose proof Hc as [_ Hk]%elem_of_kept.
    repeat (case_guard; simpl); done.
  - repeat (case_guard; simpl); done.
Qed.

Lemma date_in_cols : "date" ∈ cols.
Proof. unfold cols. set_solver. Qed.

Lemma reference_id_in_cols : "reference_id" ∈ cols.
Proof. unfold cols. set_solver. Qed.

Lemma watched_at_not_kept h : "watched_at" ∉ kept h.
Proof.
  rewrite elem_of_kept. intros [Hc _]. unfold cols in Hc.
  repeat (apply elem_of_cons in Hc as [Hc|Hc]; [done|]).
  by apply elem_of_nil in Hc.
Qed.

Lemma select_pd_DataFrame h :
  select (filter (λ c, c ∈ columns (pd_DataFrame h)) cols) (pd_DataFrame h)
  = Frame (kept h) (kept_row h <$> h).
Proof.
  unfold select, pd_DataFrame, kept_row, kept. simpl. f_equal.
  by rewrite <- list_fmap_compose.
Qed.

Lemma getitem_kept h c :
  getitem c (Frame (kept h) (kept_row h <$> h)) =
  if decide (c ∈ kept h) then OK (frame_cell h c <$> h)
  else Raise (KeyError c).
Proof.
  unfold getitem. simpl. case_bool_decide as Hc.
  - rewrite decide_True by done. f_equal.
    rewrite <- list_fmap_compose. apply list_fmap_ext.
    intros i r Hr. simpl. rewrite lookup_kept_row.
    by rewrite decide_True.
  - by rewrite decide_False.
Qed.

(** Lines 53-60 in closed form. *)
Lemma transform_spec h :
  transform (pd_DataFrame h) =
  if decide ("date" ∈ all_keys h) then
    match mapM to_datetime (frame_cell h "date" <$> h) with
    | OK _ =>
        OK (Frame (filter (λ c, c ≠ "date") (kept h ++ ["watched_at"]))
                  (transformed_row h <$> h))
    | Raise e => Raise e
    end
  else Raise (KeyError "date").
Proof.
  unfold transform. rewrite select_pd_DataFrame, getitem_kept.
  destruct (decide ("date" ∈ all_keys h)) as [Hd|Hd].
  - rewrite decide_True by (apply elem_of_kept; auto using date_in_cols).
    simpl. destruct (mapM to_datetime _) as [ws|e] eqn:Hws; [|done]. simpl.
    apply (mapM_OK_inv _ CNaT) in Hws as [-> _].
    unfold setitem, drop. simpl.
    rewrite (bool_decide_eq_false_2 ("watched_at" ∈ kept h))
      by apply watched_at_not_kept.
    rewrite bool_decide_eq_true_2
      by (apply elem_of_app; left; apply elem_of_kept; auto using date_in_cols).
    f_equal. f_equal.
    rewrite <- list_fmap_compose, zip_with_fmap_l, zip_with_fmap_r, zip_with_diag.
    by rewrite <- list_fmap_compose.
  - rewrite decide_False; [done|]. rewrite elem_of_kept. tauto.
Qed.

Lemma lookup_transformed_row h r c :
  transformed_row h r !! c =
  if decide (c = "date") then None
  else if decide (c = "watched_at")
       then Some (value_or CNaT (to_datetime (frame_cell h "date" r)))
       else if decide (c ∈ kept h) then Some (frame_cell h c r) else None.
Proof.
  unfold transformed_row.
  destruct (decide (c = "date")) as [->|Hd]; [apply lookup_delete_eq|].
  rewrite lookup_delete_ne by done.
  destruct (decide (c = "watched_at")) as [->|Hw]; [apply lookup_insert_eq|].
  rewrite lookup_insert_ne by done. by apply lookup_kept_row.
Qed.

Lemma reference_id_normalized h :
  "reference_id" ∈ normalized_columns h ↔ "reference_id" ∈ all_keys h.
Proof.
  unfold normalized_columns.
  rewrite list_elem_of_filter, elem_of_app, elem_of_kept, list_elem_of_singleton.
  pose proof reference_id_in_cols. naive_solver.
Qed.

(** Lines 84-85 on the frame lines 53-60 produce, in closed form. *)
Lemma clean_spec h :
  clean (Frame (normalized_columns h) (transformed_row h <$> h)) =
  if decide ("reference_id" ∈ all_keys h) then
    match astype_int (frame_cell h "reference_id" <$> filter has_key h) with
    | OK _ =>
        OK (Frame (normalized_columns h) (normalized_row h <$> filter has_key h))
    | Raise e => Raise e
    end
  else Raise (KeyErrorLabels ["reference_id"]).
Proof.
  unfold clean, dropna. simpl.
  destruct (decide ("reference_id" ∈ all_keys h)) as [Hk|Hk].
  - rewrite bool_decide_eq_true_2 by (by apply reference_id_normalized).
    simpl. unfold getitem. simpl.
    rewrite bool_decide_eq_true_2 by (by apply reference_id_normalized).
    simpl.
    assert ("reference_id" ∈ kept h) as Hkept
      by (apply elem_of_kept; auto using reference_id_in_cols).
    rewrite (filter_fmap_comm _ _ has_key).
    2:{ intros r Hr. rewrite lookup_transformed_row.
        rewrite !decide_False by done. rewrite decide_True by done.
        simpl. unfold has_key. by rewrite isna_frame_cell. }
    rewrite <- list_fmap_compose.
    rewrite (list_fmap_ext _ (frame_cell h "reference_id")).
    2:{ intros i r Hr. simpl.
        rewrite lookup_transformed_row.
        rewrite !decide_False by done. by rewrite decide_True. }
    destruct (astype_int _) as [ks|e] eqn:Hks; [|done]. simpl.
    unfold astype_int in Hks. apply (mapM_OK_inv _ CNaN) in Hks as [-> _].
    unfold setitem. simpl.
    rewrite bool_decide_eq_true_2 by (by apply reference_id_normalized).
    do 2 f_equal.
    by rewrite <- list_fmap_compose, zip_with_fmap_l, zip_with_fmap_r, zip_with_diag.
  - rewrite bool_decide_eq_false_2; [done|]. by rewrite reference_id_normalized.
Qed.

Lemma normalize_spec h :
  normalize h =
  if decide ("date" ∈ all_keys h) then
    match mapM to_datetime (frame_cell h "date" <$> h) with
    | OK _ =>
        if decide ("reference_id" ∈ all_keys h) then
          match astype_int (frame_cell h "reference_id" <$> filter has_key h) with
          | OK _ =>
              OK (Frame (normalized_columns h)
                        (normalized_row h <$> filter has_key h))
          | Raise e => Raise e
          end
        else Raise (KeyErrorLabels ["reference_id"])
    | Raise e => Raise e
    end
  else Raise (KeyError "date").
Proof.
  unfold normalize. rewrite transform_spec.
  destruct (decide ("date" ∈ all_keys h)); [|done].
  destruct (mapM to_datetime _); [|done].
  apply clean_spec.
Qed.

(** Every date of the batch converts as the frame holds it when it
    converts as it was given, and so does every key that is there. *)
Lemma dates_convert h :
  (∀ r, r ∈ h → is_OK (to_datetime (entry "date" r)) = true) →
  mapM to_datetime (frame_cell h "date" <$> h)
  = OK ((λ r, value_or CNaT (to_datetime (frame_cell h "date" r))) <$> h).
Proof.
  intros Hdates. rewrite (mapM_OK _ CNaT).
  - by rewrite <- list_fmap_compose.
  - apply Forall_fmap, Forall_forall. intros r Hr. simpl.
    by apply to_datetime_frame_cell, Hdates.
Qed.

Lemma keys_convert h :
  (∀ r, r ∈ h → has_key r →
        is_OK (int_of_cell (entry "reference_id" r)) = true) →
  is_OK (astype_int (frame_cell h "reference_id" <$> filter has_key h)) = true.
Proof.
  intros Hkeys. unfold astype_int. rewrite (mapM_OK _ CNaN); [done|].
  apply Forall_fmap, Forall_forall.
  intros r [Hr Hin]%list_elem_of_filter. simpl.
  pose proof (int_of_frame_cell h "reference_id" r Hin (Hkeys r Hin Hr)) as H.
  by destruct (int_of_cell _).
Qed.






(** *** A key that is not a number *)






(** C7.  At this input the code departs from the claim: the only record
    of the batch has no [platform], every other field being there; the
    selection of line 56 tolerates that, but building the parameters of
    the first [INSERT] raises [KeyError], and nothing is written. *)
Theorem C7_missing_column_is_fatal :
  columns (value_or (Frame [] [])
             (transform (pd_DataFrame [delete "platform" (item (VInt 1))])))
  = ["reference_id"; "friendly_name"; "full_title"; "media_type";
     "duration"; "ip_address"; "watched_at"]
  ∧ fetch_history (answer [delete "platform" (item (VInt 1))]) None blank
    = (Raise (KeyError "platform"),
       World (Some ∅) None
             [Log INFO StartingETL; HttpGet 10; Log INFO (Fetched 1);
              Log INFO (Processing 1); Connect;
              Execute CreateTableIfNotExists; Commit; Close]).
Proof. split; vm_compute; reflexivity. Qed.

(** ** Timestamps and the calendar *)

Module CalendarFacts.
Import Calendar.

(** Within an era the year and the day of the year are in range. *)
Lemma year_of_era doe :
  0 ≤ doe ≤ 146096 →
  let yoe := (doe - doe / 1460 + doe / 36524 - doe / 146096) / 365 in
  0 ≤ yoe ≤ 399 ∧ 0 ≤ doe - (365 * yoe + yoe / 4 - yoe / 100) ≤ 365.
Proof. intros H yoe. subst yoe. Z.to_euclidean_division_equations; lia. Qed.

Lemma month_of_year doy :
  0 ≤ doy ≤ 365 →
  let mp := (5 * doy + 2) / 153 in
  0 ≤ mp ≤ 11 ∧ 1 ≤ doy - (153 * mp + 2) / 5 + 1 ≤ 31.
Proof. intros H mp. subst mp. Z.to_euclidean_division_equations; lia. Qed.

(** Counting the days of a date gives back the day count it came from. *)
Lemma days_round_trip z :
  let '(y, m, d) := civil_from_days z in
  days_from_civil y m d = z ∧ 1 ≤ m ≤ 12 ∧ 1 ≤ d ≤ 31.
Proof.
  unfold civil_from_days.
  set (z' := z + 719468).
  set (era := z' / 146097). set (doe := z' mod 146097).
  assert (0 ≤ doe ≤ 146096) as Hdoe
    by (pose proof (Z.mod_pos_bound z' 146097); lia).
  destruct (year_of_era doe Hdoe) as [Hyoe Hdoy].
  set (yoe := (doe - doe / 1460 + doe / 36524 - doe / 146096) / 365) in *.
  set (doy := doe - (365 * yoe + yoe / 4 - yoe / 100)) in *.
  destruct (month_of_year doy Hdoy) as [Hmp Hd].
  set (mp := (5 * doy + 2) / 153) in *.
  set (d := doy - (153 * mp + 2) / 5 + 1) in *.
  assert (z = era * 146097 + doe - 719468) as Hz
    by (pose proof (Z.div_mod z' 146097); unfold era, doe, z' in *; lia).
  assert (∀ y, y = yoe + era * 400 → y / 400 = era ∧ y mod 400 = yoe) as Hera.
  { intros y ->. split.
    - rewrite Z.div_add by lia. rewrite Z.div_small by lia. lia.
    - rewrite Z.mod_add by lia. apply Z.mod_small. lia. }
  unfold days_from_civil.
  destruct (Z.ltb_spec mp 10) as [Hlt|Hge].
  - replace (mp + 3 <=? 2) with false by (symmetry; apply Z.leb_gt; lia).
    replace (2 <? mp + 3) with true by (symmetry; apply Z.ltb_lt; lia).
    destruct (Hera (yoe + era * 400) eq_refl) as [-> ->].
    replace (mp + 3 - 3) with mp by lia.
    unfold d, doy in *. lia.
  - replace (mp - 9 <=? 2) with true by (symmetry; apply Z.leb_le; lia).
    replace (2 <? mp - 9) with false by (symmetry; apply Z.ltb_ge; lia).
    replace (yoe + era * 400 + 1 - 1) with (yoe + era * 400) by lia.
    destruct (Hera (yoe + era * 400) eq_refl) as [-> ->].
    replace (mp - 9 + 9) with mp by lia.
    unfold d, doy in *. lia.
Qed.

(** The seconds read back from the fields of a [Timestamp] are its whole
    seconds. *)
Lemma timestamp_fields ns : timestamp (fields ns) = ns / ns_per_second.
Proof.
  unfold fields, timestamp.
  set (s := ns / ns_per_second).
  pose proof (days_round_trip (s / 86400)) as H.
  destruct (civil_from_days (s / 86400)) as [[y m] d]. simpl.
  destruct H as [-> _].
  Z.to_euclidean_division_equations; lia.
Qed.

End CalendarFacts.

(** C8, as amended.  A record whose [date] is an integer number of seconds
    [n] that fits pandas' nanosecond timestamps is transformed into a row
    that has, under [watched_at], the timestamp [n] seconds after the
    epoch, and no [date] any more; the seconds read back from the calendar
    fields of that timestamp are [n]; and 1700000000 is
    2023-11-14 22:13:20. *)
Theorem C8_timestamp_round_trip (n : Z) (r : raw_record) :
  in_bounds n = true → r !! "date" = Some (VInt n) →
  (∃ df row,
     transform (pd_DataFrame [r]) = OK df
     ∧ rows df = [row]
     ∧ "watched_at" ∈ columns df
     ∧ ¬ ("date" ∈ columns df)
     ∧ row !! "watched_at" = Some (CTimestamp (n * ns_per_second))
     ∧ row !! "date" = None)
  ∧ Calendar.timestamp (Calendar.fields (n * ns_per_second)) = n
  ∧ Calendar.fields (1700000000 * ns_per_second)
    = Calendar.Datetime 2023 11 14 22 13 20 0.
Proof.
  intros Hn Hdate.
  assert (entry "date" r = CInt n) as He by (unfold entry; by rewrite Hdate).
  split; [|split].
  - rewrite transform_spec.
    rewrite decide_True
      by (apply elem_of_all_keys; exists r; split; [by left|by rewrite Hdate]).
    simpl. rewrite frame_cell_singleton, He, (to_datetime_seconds n Hn). simpl.
    eexists _, _. split; [reflexivity|]. simpl. split; [reflexivity|].
    repeat split.
    + apply list_elem_of_filter. split; [done|].
      apply elem_of_app. right. by left.
    + intros [Hne _]%list_elem_of_filter. done.
    + rewrite lookup_transformed_row. simpl.
      by rewrite frame_cell_singleton, He, (to_datetime_seconds n Hn).
    + by rewrite lookup_transformed_row.
  - rewrite CalendarFacts.timestamp_fields. apply Z.div_mul. done.
  - reflexivity.
Qed.

Lemma C8_witness :
  (∃ df row,
     transform (pd_DataFrame [item (VInt 1)]) = OK df
     ∧ rows df = [row]
     ∧ "watched_at" ∈ columns df
     ∧ ¬ ("date" ∈ columns df)
     ∧ row !! "watched_at" = Some (CTimestamp (1700000000 * ns_per_second))
     ∧ row !! "date" = None)
  ∧ Calendar.timestamp (Calendar.fields (1700000000 * ns_per_second))
    = 1700000000
  ∧ Calendar.fields (1700000000 * ns_per_second)
    = Calendar.Datetime 2023 11 14 22 13 20 0.
Proof.
  apply (C8_timestamp_round_trip 1700000000 (item (VInt 1))); reflexivity.
Defined.

(** C8 as stated fails for the integers pandas cannot hold as a
    timestamp: such a date makes [pd.to_datetime] raise, so that there is
    no timestamp to read the seconds back from. *)
Lemma C8_far_date_is_refused :
  to_datetime (CInt (10 ^ 30)) = Raise OutOfBoundsDatetime
  ∧ transform (pd_DataFrame [<["date" := VInt (10 ^ 30)]> (item (VInt 1))])
    = Raise OutOfBoundsDatetime.
Proof. split; vm_compute; reflexivity. Qed.

(** * Whole cycles *)

(** ** A store that holds *)

(** Lines 67-111 on a connection that never drops, step by step. *)
Lemma load_healthy df w :
  load None df w =
  let w1 := World (Some (stored w)) (Some (Conn (Some (stored w)) None false))
                  (trace w ++ [Connect; Execute CreateTableIfNotExists; Commit]) in
  match clean df with
  | OK df' =>
      match write df' w1 with
      | (r, w2) => (r, World (plex_history w2) None (trace w2 ++ [Close]))
      end
  | Raise e => (Raise e, World (Some (stored w)) None (trace w1 ++ [Close]))
  end.
Proof. by rewrite load_run. Qed.

(** The loop stops at the first row that lacks a column, before any
    statement is sent for it. *)
Lemma insert_rows_KeyError row rs count w e :
  bind_params row = Raise e →
  insert_rows (row :: rs) count w = (Raise e, w).
Proof. intros H. simpl. rewrite bind_run, lift_run. by rewrite H. Qed.

Lemma write_KeyError df row rs w e :
  rows df = row :: rs → bind_params row = Raise e →
  write df w = (Raise e, w).
Proof.
  intros Hrows H. unfold write. rewrite bind_run, Hrows.
  by rewrite (insert_rows_KeyError row rs 0 w e H).
Qed.

(** Lines 43-65 and the call of the load step, for a history that is not
    empty. *)
Lemma after_fetch_run h link w :
  h ≠ [] →
  after_fetch (Envelope h) link w =
  let w1 := with_trace w [Log INFO (Fetched (length h))] in
  match transform (pd_DataFrame h) with
  | OK df =>
      match load link df
              (with_trace w1 [Log INFO (Processing (length (rows df)))]) with
      | (OK _, w2) => (OK (), w2)
      | (Raise e, w2) => (Raise e, w2)
      end
  | Raise e => (Raise e, w1)
  end.
Proof.
  intros Hne. unfold after_fetch. rewrite bind_run, lift_run. simpl.
  rewrite bool_decide_eq_false_2 by done.
  rewrite bind_run, log_run, bind_run, lift_run, length_fmap.
  destruct (transform _) as [df|e]; [|done].
  rewrite bind_run, log_run, bind_run.
  by destruct (load link df _) as [[c|e] w2].
Qed.

Lemma fetch_history_answer h link w :
  fetch_history (answer h) link w
  = after_fetch (Envelope h) link
      (with_trace w [Log INFO StartingETL; HttpGet 10]).
Proof. by rewrite fetch_history_run. Qed.

Lemma lookup_normalized_row h r c :
  normalized_row h r !! c =
  if decide (c = "reference_id")
  then Some (value_or CNaN
               (CInt <$> int_of_cell (frame_cell h "reference_id" r)))
  else transformed_row h r !! c.
Proof.
  unfold normalized_row.
  destruct (decide (c = "reference_id")) as [->|Hne].
  - apply lookup_insert_eq.
  - by rewrite lookup_insert_ne.
Qed.

Lemma row_get_normalized h r c :
  c ∈ optional_cols →
  row_get c (normalized_row h r) =
  if decide (c ∈ all_keys h) then OK (frame_cell h c r)
  else Raise (KeyError c).
Proof.
  intros Hc. unfold row_get.
  assert (c ∈ cols ∧ c ≠ "reference_id" ∧ c ≠ "date" ∧ c ≠ "watched_at")
    as (Hcols & H1 & H2 & H3).
  { unfold optional_cols, cols in *.
    repeat (apply elem_of_cons in Hc as [->|Hc];
            [split; [set_solver|done]|]).
    by apply elem_of_nil in Hc. }
  rewrite lookup_normalized_row, lookup_transformed_row.
  rewrite !decide_False by done.
  destruct (decide (c ∈ all_keys h)).
  - rewrite decide_True; [done|]. by apply elem_of_kept.
  - rewrite decide_False; [done|]. rewrite elem_of_kept. tauto.
Qed.

Lemma row_get_reference_id h r :
  row_get "reference_id" (normalized_row h r)
  = OK (value_or CNaN (CInt <$> int_of_cell (frame_cell h "reference_id" r))).
Proof.
  unfold row_get. rewrite lookup_normalized_row.
  by rewrite decide_True.
Qed.

Lemma row_get_watched_at h r :
  row_get "watched_at" (normalized_row h r)
  = OK (value_or CNaT (to_datetime (frame_cell h "date" r))).
Proof.
  unfold row_get.
  rewrite lookup_normalized_row, lookup_transformed_row.
  by rewrite !decide_False, decide_True by done.
Qed.

(** With every optional column in the frame, the parameters of a row are
    the entries of the frame for its record. *)
Lemma bind_params_normalized h r :
  (∀ c, c ∈ optional_cols → c ∈ all_keys h) →
  bind_params (normalized_row h r) = OK (params_of_record h r).
Proof.
  intros Hall. unfold bind_params.
  rewrite row_get_reference_id, row_get_watched_at. simpl.
  rewrite !row_get_normalized by (unfold optional_cols; set_solver).
  rewrite !decide_True by (apply Hall; unfold optional_cols; set_solver).
  reflexivity.
Qed.

(** With an optional column missing from the frame, no row yields
    parameters: the first missing column, in the order of lines 100-105,
    is the [KeyError]. *)
Lemma bind_params_missing h r :
  (∃ c, c ∈ optional_cols ∧ c ∉ all_keys h) →
  ∃ c, c ∈ optional_cols ∧ (c ∉ all_keys h)
       ∧ bind_params (normalized_row h r) = Raise (KeyError c).
Proof.
  intros (c0 & Hc0 & Hmiss). unfold bind_params.
  rewrite row_get_reference_id, row_get_watched_at. simpl.
  assert (∀ c, c ∈ optional_cols →
            row_get c (normalized_row h r) =
            if decide (c ∈ all_keys h) then OK (frame_cell h c r)
            else Raise (KeyError c)) as Hget
    by (intros; by apply row_get_normalized).
  assert (∀ c, c ∈ optional_cols → c ∉ all_keys h →
            ∃ c', c' ∈ optional_cols ∧ (c' ∉ all_keys h)
                  ∧ (Raise (KeyError c) : result params) = Raise (KeyError c'))
    as Hdone by eauto.
  rewrite (Hget "friendly_name") by (unfold optional_cols; set_solver).
  destruct (decide ("friendly_name" ∈ all_keys h));
    [simpl|apply Hdone; [unfold optional_cols; set_solver|done]].
  rewrite (Hget "full_title") by (unfold optional_cols; set_solver).
  destruct (decide ("full_title" ∈ all_keys h));
    [simpl|apply Hdone; [unfold optional_cols; set_solver|done]].
  rewrite (Hget "media_type") by (unfold optional_cols; set_solver).
  destruct (decide ("media_type" ∈ all_keys h));
    [simpl|apply Hdone; [unfold optional_cols; set_solver|done]].
  rewrite (Hget "duration") by (unfold optional_cols; set_solver).
  destruct (decide ("duration" ∈ all_keys h));
    [simpl|apply Hdone; [unfold optional_cols; set_solver|done]].
  rewrite (Hget "ip_address") by (unfold optional_cols; set_solver).
  destruct (decide ("ip_address" ∈ all_keys h));
    [simpl|apply Hdone; [unfold optional_cols; set_solver|done]].
  rewrite (Hget "platform") by (unfold optional_cols; set_solver).
  destruct (decide ("platform" ∈ all_keys h));
    [simpl|apply Hdone; [unfold optional_cols; set_solver|done]].
  exfalso. unfold optional_cols in Hc0.
  repeat (apply elem_of_cons in Hc0 as [->|Hc0]; [done|]).
  by apply elem_of_nil in Hc0.
Qed.

Lemma mapM_fmap_OK {A B C} (f : B → result C) (g : A → B) (k : A → C)
    (l : list A) :
  (∀ x, x ∈ l → f (g x) = OK (k x)) → mapM f (g <$> l) = OK (k <$> l).
Proof.
  induction l as [|x l IH]; intros H; [done|].
  rewrite !fmap_cons. simpl. rewrite H by left. simpl.
  rewrite IH by (intros; apply H; by right). done.
Qed.

Lemma all_keys_nonempty h c : c ∈ all_keys h → h ≠ [].
Proof.
  intros (r & Hr & _)%elem_of_all_keys ->. by apply elem_of_nil in Hr.
Qed.

(** What lines 53-60 and 84-85 return when every date and every key that
    is there converts. *)
Lemma transform_OK h :
  "date" ∈ all_keys h →
  (∀ r, r ∈ h → is_OK (to_datetime (entry "date" r)) = true) →
  transform (pd_DataFrame h)
  = OK (Frame (normalized_columns h) (transformed_row h <$> h)).
Proof.
  intros Hdate Hdates. rewrite transform_spec, decide_True by done.
  by rewrite (dates_convert h Hdates).
Qed.

Lemma clean_OK h :
  "reference_id" ∈ all_keys h →
  (∀ r, r ∈ h → has_key r →
        is_OK (int_of_cell (entry "reference_id" r)) = true) →
  clean (Frame (normalized_columns h) (transformed_row h <$> h))
  = OK (Frame (normalized_columns h) (normalized_row h <$> filter has_key h)).
Proof.
  intros Hkey Hkeys. rewrite clean_spec, decide_True by done.
  pose proof (keys_convert h Hkeys) as H.
  by destruct (astype_int _).
Qed.

Lemma bind_params_batch h :
  (∀ c, c ∈ optional_cols → c ∈ all_keys h) →
  mapM bind_params (normalized_row h <$> filter has_key h)
  = OK (params_of_batch h).
Proof.
  intros Hall. unfold params_of_batch. apply mapM_fmap_OK.
  intros r _. by apply bind_params_normalized.
Qed.

Lemma upsert_all_app ps1 ps2 (t : table) :
  upsert_all (ps1 ++ ps2) t
  = ((upsert_all ps2 (upsert_all ps1 t).1).1,
     ((upsert_all ps1 t).2 + (upsert_all ps2 (upsert_all ps1 t).1).2)%nat).
Proof.
  revert t. induction ps1 as [|p ps1 IH]; intros t.
  - simpl. by destruct (upsert_all ps2 t).
  - simpl. destruct (pkey p) as [k|]; [|apply IH].
    destruct (insert_on_conflict_do_nothing k p t) as [t1 rc].
    rewrite IH. destruct (upsert_all ps1 t1) as [t2 n]. simpl.
    destruct (upsert_all ps2 t2) as [t3 m]. simpl.
    by destruct (0 <? rc).
Qed.

(** *** Well-formed records *)

Lemma int4_int64 n : int4 n = true → is_int64 n = true ∧ Z.abs n ≤ 2 ^ 53.
Proof.
  unfold int4, is_int64, int64_max.
  rewrite !andb_true_iff, !Z.leb_le, Z.ltb_lt. lia.
Qed.

Lemma well_formed_key r :
  well_formed r = true →
  entry "reference_id" r = CNone
  ∨ ∃ k, entry "reference_id" r = CInt k ∧ int4 k = true.
Proof.
  unfold well_formed, entry. rewrite !andb_true_iff. intros [[[H _] _] _].
  destruct (r !! "reference_id") as [[| |k|]|]; try done; eauto.
Qed.

Lemma well_formed_date r :
  well_formed r = true →
  ∃ n, entry "date" r = CInt n ∧ in_bounds n = true.
Proof.
  unfold well_formed, entry. rewrite !andb_true_iff. intros [[[_ H] _] _].
  destruct (r !! "date") as [[| |n|]|]; try done; eauto.
Qed.

Lemma well_formed_duration r :
  well_formed r = true →
  ∃ d, entry "duration" r = CInt d ∧ int4 d = true.
Proof.
  unfold well_formed, entry. rewrite !andb_true_iff. intros [[_ H] _].
  destruct (r !! "duration") as [[| |n|]|]; try done; eauto.
Qed.

Lemma well_formed_text r c :
  well_formed r = true →
  c ∈ ["friendly_name"; "full_title"; "media_type"; "ip_address"; "platform"] →
  text_cell (entry c r) = true ∧ is_Some (r !! c).
Proof.
  unfold well_formed, entry. rewrite !andb_true_iff, forallb_forall.
  intros [_ H] Hc. apply list_elem_of_In, H in Hc.
  destruct (r !! c) as [[| | |s]|]; try done; eauto.
Qed.

Lemma well_formed_cols h c :
  h ≠ [] → (∀ r, r ∈ h → well_formed r = true) → c ∈ cols → c ∈ all_keys h.
Proof.
  intros Hne Hwf Hc. destruct h as [|r h]; [done|].
  apply elem_of_all_keys. exists r. split; [left|].
  assert (well_formed r = true) as Hr by (apply Hwf; left).
  unfold cols in Hc.
  repeat (apply elem_of_cons in Hc as [->|Hc];
          [first
             [ by destruct (well_formed_key r Hr) as [H|(k & H & _)];
                 unfold entry in H; destruct (r !! "reference_id")
             | by destruct (well_formed_date r Hr) as (n & H & _);
                 unfold entry in H; destruct (r !! "date")
             | by destruct (well_formed_duration r Hr) as (n & H & _);
                 unfold entry in H; destruct (r !! "duration")
             | apply (well_formed_text r _ Hr); set_solver ]|]).
  by apply elem_of_nil in Hc.
Qed.

(** A column without a gap, and a column of strings and nulls, are not
    converted. *)
Lemma float64_column_no_gap vs :
  (∀ v, v ∈ vs → isna v = false) → float64_column vs = false.
Proof.
  intros H. unfold float64_column.
  replace (existsb isna vs) with false; [by rewrite andb_false_r|].
  symmetry. apply not_true_is_false. intros (v & Hv & Hna)%existsb_exists.
  apply list_elem_of_In, H in Hv. congruence.
Qed.

Lemma float64_column_text vs :
  (∀ v, v ∈ vs → text_cell v = true) → float64_column vs = false.
Proof.
  intros H. unfold float64_column.
  destruct (forallb _ vs) eqn:Hall; [|done]. simpl.
  replace (existsb (λ v, negb (bool_decide (v = CNone))) vs) with false;
    [by rewrite andb_false_r|].
  symmetry. apply not_true_is_false. intros (v & Hv & Hne)%existsb_exists.
  rewrite forallb_forall in Hall. specialize (Hall v Hv).
  apply list_elem_of_In, H in Hv. by destruct v.
Qed.

Section well_formed.
Context (h : list raw_record).
Hypothesis Hwf : ∀ r, r ∈ h → well_formed r = true.

Lemma frame_cell_date r : r ∈ h → frame_cell h "date" r = entry "date" r.
Proof.
  intros _. apply frame_cell_object, float64_column_no_gap.
  intros v (r' & -> & Hr')%list_elem_of_fmap.
  by destruct (well_formed_date r' (Hwf r' Hr')) as (n & -> & _).
Qed.

Lemma frame_cell_duration r :
  r ∈ h → frame_cell h "duration" r = entry "duration" r.
Proof.
  intros _. apply frame_cell_object, float64_column_no_gap.
  intros v (r' & -> & Hr')%list_elem_of_fmap.
  by destruct (well_formed_duration r' (Hwf r' Hr')) as (n & -> & _).
Qed.

Lemma frame_cell_text r c :
  c ∈ ["friendly_name"; "full_title"; "media_type"; "ip_address"; "platform"] →
  frame_cell h c r = entry c r.
Proof.
  intros Hc. apply frame_cell_object, float64_column_text.
  intros v (r' & -> & Hr')%list_elem_of_fmap.
  by apply (well_formed_text r' c (Hwf r' Hr')).
Qed.

Lemma frame_cell_key r k :
  r ∈ h → entry "reference_id" r = CInt k →
  int_of_cell (frame_cell h "reference_id" r) = OK k.
Proof.
  intros Hr Hk.
  destruct (well_formed_key r (Hwf r Hr)) as [H|(k' & H & Hk')];
    rewrite Hk in H; [done|]. injection H as <-.
  apply int4_int64 in Hk' as [H64 H53].
  unfold frame_cell, convert. rewrite Hk.
  destruct (float64_column _); simpl.
  - by rewrite float_of_int_exact, H64.
  - unfold to_int64. by rewrite H64.
Qed.

(** The parameters bound for a well-formed record are the row it is
    stored as, and the columns accept them. *)
Lemma params_of_well_formed r :
  r ∈ h → has_key r → params_of_record h r = row_of_record r.
Proof.
  intros Hr Hk. unfold params_of_record, row_of_record.
  destruct (well_formed_key r (Hwf r Hr)) as [H|(k & H & _)];
    [unfold has_key in Hk; by rewrite H in Hk|].
  rewrite (frame_cell_key r k Hr H), H. simpl.
  rewrite (frame_cell_date r Hr), (frame_cell_duration r Hr).
  by rewrite !frame_cell_text by set_solver.
Qed.

Lemma row_of_well_formed r :
  r ∈ h → has_key r → well_typed (row_of_record r) = true.
Proof.
  intros Hr Hk. pose proof (Hwf r Hr) as Hwr.
  unfold well_typed, row_of_record. simpl.
  destruct (well_formed_key r Hwr) as [H|(k & -> & Hk4)];
    [unfold has_key in Hk; by rewrite H in Hk|].
  destruct (well_formed_date r Hwr) as (n & -> & Hn).
  destruct (well_formed_duration r Hwr) as (d & -> & Hd).
  rewrite (to_datetime_seconds n Hn). simpl. rewrite Hk4, Hd. simpl.
  rewrite !andb_true_iff. repeat split.
  all: apply (well_formed_text r _ Hwr); set_solver.
Qed.

Lemma params_of_batch_well_formed : params_of_batch h = rows_of_batch h.
Proof.
  unfold params_of_batch, rows_of_batch. apply list_fmap_ext.
  intros i r [Hk Hr]%list_elem_of_lookup_2%list_elem_of_filter.
  by apply params_of_well_formed.
Qed.

Lemma rows_of_batch_accepted :
  mapM accepted (rows_of_batch h) = OK (rows_of_batch h).
Proof.
  apply well_typed_all_accepted. unfold rows_of_batch.
  apply Forall_fmap, Forall_forall. intros r [Hk Hr]%list_elem_of_filter.
  by apply row_of_well_formed.
Qed.

Lemma well_formed_dates r :
  r ∈ h → is_OK (to_datetime (entry "date" r)) = true.
Proof.
  intros Hr. destruct (well_formed_date r (Hwf r Hr)) as (n & -> & Hn).
  by rewrite (to_datetime_seconds n Hn).
Qed.

Lemma well_formed_keys r :
  r ∈ h → has_key r → is_OK (int_of_cell (entry "reference_id" r)) = true.
Proof.
  intros Hr Hk.
  destruct (well_formed_key r (Hwf r Hr)) as [H|(k & H & Hk4)];
    [unfold has_key in Hk; by rewrite H in Hk|].
  rewrite H. simpl. unfold to_int64.
  by apply int4_int64 in Hk4 as [-> _].
Qed.

(** Lines 43-111 on a batch of well-formed records and a store that
    holds. *)
Lemma after_fetch_succeeds (w : world) :
  h ≠ [] →
  after_fetch (Envelope h) None w
  = (OK (),
     World (Some (upsert_all (rows_of_batch h) (stored w)).1) None
           (trace w
              ++ [Log INFO (Fetched (length h));
                  Log INFO (Processing (length h));
                  Connect; Execute CreateTableIfNotExists; Commit]
              ++ inserts (rows_of_batch h)
              ++ [Commit;
                  Log INFO (Inserted (upsert_all (rows_of_batch h)
                                                 (stored w)).2);
                  Close])).
Proof.
  intros Hne.
  pose proof (well_formed_cols h) as Hcols.
  assert ("date" ∈ all_keys h) as Hdate by (by apply Hcols, date_in_cols).
  assert ("reference_id" ∈ all_keys h) as Hkey
    by (by apply Hcols, reference_id_in_cols).
  assert (∀ c, c ∈ optional_cols → c ∈ all_keys h) as Hopt
    by (intros c Hc; apply Hcols; try done; revert Hc;
        unfold optional_cols, cols; set_solver).
  rewrite after_fetch_run by done.
  simpl. rewrite (transform_OK h Hdate well_formed_dates). simpl.
  rewrite length_fmap, load_healthy. simpl.
  rewrite (clean_OK h Hkey well_formed_keys).
  pose proof (bind_params_batch h Hopt) as Hbind.
  rewrite params_of_batch_well_formed in Hbind.
  match goal with
  | |- context [write ?d ?w1] =>
      rewrite (write_healthy d (rows_of_batch h) (rows_of_batch h) w1
                 (stored w) false eq_refl eq_refl Hbind rows_of_batch_accepted)
  end.
  simpl. do 2 f_equal. unfold with_trace. simpl.
  rewrite <- ?app_assoc. simpl. rewrite <- ?app_assoc. reflexivity.
Qed.
End well_formed.

Ltac each_record Hr :=
  repeat (apply elem_of_cons in Hr as [->|Hr]; [vm_compute; reflexivity|]);
  by apply elem_of_nil in Hr.

Ltac each_keyed_record Hr Hk :=
  repeat (apply elem_of_cons in Hr as [->|Hr];
          [first [vm_compute; reflexivity | vm_compute in Hk; discriminate]|]);
  by apply elem_of_nil in Hr.

(** A batch of well-formed records: every field is there, the ones that
    may be null being the identifier and the five text fields. *)
Lemma sample_batch_well_formed r :
  r ∈ [item (VInt 1); item VNull;
       <["platform" := VNull]> (item (VInt 3)); item (VInt 1)] →
  well_formed r = true.
Proof. intros Hr. each_record Hr. Qed.

(** X1.  A cycle on a store that holds, for a batch of well-formed
    records (an integer date that fits a timestamp, an identifier and a
    duration that fit an [INT] column, the identifier possibly null, and
    text or null in the five other fields), returns normally: the
    committed table is the old one with one row per new key, one
    [INSERT] was sent per keyed record, and the log reports the number of
    records fetched and the number of new keys. *)
Theorem X1_cycle_succeeds (h : list raw_record) (w : world) :
  h ≠ [] → (∀ r, r ∈ h → well_formed r = true) →
  fetch_history (answer h) None w
  = (OK (),
     World (Some (upsert_all (rows_of_batch h) (stored w)).1) None
           (trace w
              ++ [Log INFO StartingETL; HttpGet 10;
                  Log INFO (Fetched (length h));
                  Log INFO (Processing (length h));
                  Connect; Execute CreateTableIfNotExists; Commit]
              ++ inserts (rows_of_batch h)
              ++ [Commit;
                  Log INFO (Inserted
                              (size (keys (rows_of_batch h)
                                       ∖ dom (stored w))));
                  Close])).
Proof.
  intros Hne Hwf.
  rewrite fetch_history_answer.
  rewrite (after_fetch_succeeds h Hwf _ Hne).
  rewrite stored_with_trace, upsert_all_count.
  do 2 f_equal. unfold with_trace. simpl.
  by rewrite <- !app_assoc.
Qed.

Lemma X1_witness :
  let h := [item (VInt 1); item VNull;
            <["platform" := VNull]> (item (VInt 3)); item (VInt 1)] in
  fetch_history (answer h) None blank
  = (OK (),
     World (Some (upsert_all (rows_of_batch h) (stored blank)).1) None
           (trace blank
              ++ [Log INFO StartingETL; HttpGet 10;
                  Log INFO (Fetched (length h));
                  Log INFO (Processing (length h));
                  Connect; Execute CreateTableIfNotExists; Commit]
              ++ inserts (rows_of_batch h)
              ++ [Commit;
                  Log INFO (Inserted
                              (size (keys (rows_of_batch h)
                                       ∖ dom (stored blank))));
                  Close])).
Proof.
  intros h. apply (X1_cycle_succeeds h blank).
  - done.
  - apply sample_batch_well_formed.
Defined.

Lemma all_keys_app h1 h2 : all_keys (h1 ++ h2) = all_keys h1 ∪ all_keys h2.
Proof. unfold all_keys. by rewrite fmap_app, union_list_app_L. Qed.

Lemma rows_of_batch_app h1 h2 :
  rows_of_batch (h1 ++ h2) = rows_of_batch h1 ++ rows_of_batch h2.
Proof. unfold rows_of_batch. by rewrite filter_app, fmap_app. Qed.

(** X2.  Two cycles in a row, each on a batch of well-formed records,
    leave the table that one cycle on the two histories put end to end
    would leave, and the two reported counts add up to the count of that
    one cycle; records of the second answer that the first one already
    brought count for nothing. *)
Theorem X2_cycles_compose (h1 h2 : list raw_record) (w : world) :
  h1 ≠ [] → h2 ≠ [] →
  (∀ r, r ∈ h1 ++ h2 → well_formed r = true) →
  ∃ w1 w2 w12,
    fetch_history (answer h1) None w = (OK (), w1)
    ∧ fetch_history (answer h2) None w1 = (OK (), w2)
    ∧ fetch_history (answer (h1 ++ h2)) None w = (OK (), w12)
    ∧ stored w2 = stored w12
    ∧ (size (keys (rows_of_batch h1) ∖ dom (stored w))
       + size (keys (rows_of_batch h2) ∖ dom (stored w1))
       = size (keys (rows_of_batch (h1 ++ h2)) ∖ dom (stored w)))%nat.
Proof.
  intros Hne1 Hne2 Hwf.
  assert (h1 ++ h2 ≠ []) as Hne12 by (by destruct h1).
  rewrite !fetch_history_answer.
  rewrite (after_fetch_succeeds h1)
    by (try done; intros; apply Hwf, elem_of_app; by left).
  eexists _, _, _. split; [reflexivity|].
  rewrite fetch_history_answer.
  rewrite (after_fetch_succeeds h2)
    by (try done; intros; apply Hwf, elem_of_app; by right).
  split; [reflexivity|].
  rewrite (after_fetch_succeeds (h1 ++ h2) Hwf _ Hne12).
  split; [reflexivity|].
  rewrite !stored_with_trace.
  unfold stored at 1 2 3 6. simpl.
  rewrite rows_of_batch_app, upsert_all_app. simpl.
  split; [reflexivity|].
  rewrite <- !upsert_all_count. by rewrite upsert_all_app.
Qed.

Lemma X2_witness :
  let h1 := [item (VInt 1); item VNull;
             <["platform" := VNull]> (item (VInt 3)); item (VInt 1)] in
  let h2 := [item (VInt 1); item (VInt 9)] in
  ∃ w1 w2 w12,
    fetch_history (answer h1) None blank = (OK (), w1)
    ∧ fetch_history (answer h2) None w1 = (OK (), w2)
    ∧ fetch_history (answer (h1 ++ h2)) None blank = (OK (), w12)
    ∧ stored w2 = stored w12
    ∧ (size (keys (rows_of_batch h1) ∖ dom (stored blank))
       + size (keys (rows_of_batch h2) ∖ dom (stored w1))
       = size (keys (rows_of_batch (h1 ++ h2)) ∖ dom (stored blank)))%nat.
Proof.
  intros h1 h2. apply (X2_cycles_compose h1 h2 blank).
  - done.
  - done.
  - intros r Hr. unfold h1, h2 in Hr. simpl in Hr. each_record Hr.
Defined.

(** ** Columns that no record of the batch has *)

(** X3.  When no record of a non-empty history has a [date], line 59
    raises [KeyError] before the store is contacted: the call raises, the
    world is as before except for three observations, and the loop logs
    the error and sleeps. *)
Theorem X3_no_date_column (h : list raw_record) (link : option nat)
    (w : world) :
  h ≠ [] → "date" ∉ all_keys h →
  fetch_history (answer h) link w
  = (Raise (KeyError "date"),
     with_trace w [Log INFO StartingETL; HttpGet 10;
                   Log INFO (Fetched (length h))])
  ∧ pass (Cycle (answer h) link) w
    = (OK (),
       with_trace w [Log INFO StartingJob; Log INFO StartingETL; HttpGet 10;
                     Log INFO (Fetched (length h));
                     Log ERROR (CriticalLoopError (KeyError "date"));
                     Log INFO (Sleeping 3600); Sleep 3600]).
Proof.
  intros Hne Hdate.
  assert (∀ w0, fetch_history (answer h) link w0
                = (Raise (KeyError "date"),
                   with_trace w0 [Log INFO StartingETL; HttpGet 10;
                                  Log INFO (Fetched (length h))])) as H.
  { intros w0. rewrite fetch_history_answer, after_fetch_run by done.
    simpl. rewrite transform_spec, decide_False by done.
    by rewrite with_trace_app. }
  split; [apply H|].
  rewrite pass_run. simpl. rewrite H. by rewrite !with_trace_app.
Qed.

Lemma X3_witness :
  fetch_history (answer [delete "date" (item (VInt 1))]) None blank
  = (Raise (KeyError "date"),
     with_trace blank [Log INFO StartingETL; HttpGet 10;
                       Log INFO (Fetched (length [delete "date" (item (VInt 1))]))])
  ∧ pass (Cycle (answer [delete "date" (item (VInt 1))]) None) blank
    = (OK (),
       with_trace blank
         [Log INFO StartingJob; Log INFO StartingETL; HttpGet 10;
          Log INFO (Fetched (length [delete "date" (item (VInt 1))]));
          Log ERROR (CriticalLoopError (KeyError "date"));
          Log INFO (Sleeping 3600); Sleep 3600]).
Proof.
  apply (X3_no_date_column [delete "date" (item (VInt 1))] None blank).
  - done.
  - vm_compute. intros H. discriminate H.
Defined.

(** X4.  When the dates convert but no record of the history has a
    [reference_id], the relation is created and committed first, then
    [dropna] on line 84 raises [KeyError(['reference_id'])]: no [INSERT]
    is sent and the rows stored before are all there is. *)
Theorem X4_no_reference_id_column (h : list raw_record) (w : world) :
  "date" ∈ all_keys h →
  (∀ r, r ∈ h → is_OK (to_datetime (entry "date" r)) = true) →
  "reference_id" ∉ all_keys h →
  fetch_history (answer h) None w
  = (Raise (KeyErrorLabels ["reference_id"]),
     World (Some (stored w)) None
           (trace w ++ [Log INFO StartingETL; HttpGet 10;
                        Log INFO (Fetched (length h));
                        Log INFO (Processing (length h));
                        Connect; Execute CreateTableIfNotExists; Commit;
                        Close])).
Proof.
  intros Hdate Hdates Hkey.
  rewrite fetch_history_answer.
  rewrite after_fetch_run by (by eapply all_keys_nonempty).
  simpl. rewrite (transform_OK h Hdate Hdates). simpl.
  rewrite length_fmap, load_healthy. simpl.
  rewrite clean_spec, decide_False by done.
  unfold with_trace. simpl. do 2 f_equal.
  rewrite <- ?app_assoc. simpl. by rewrite <- ?app_assoc.
Qed.

Lemma X4_witness :
  fetch_history (answer [delete "reference_id" (item (VInt 1))]) None blank
  = (Raise (KeyErrorLabels ["reference_id"]),
     World (Some (stored blank)) None
           (trace blank
              ++ [Log INFO StartingETL; HttpGet 10;
                  Log INFO (Fetched (length [delete "reference_id" (item (VInt 1))]));
                  Log INFO (Processing (length [delete "reference_id" (item (VInt 1))]));
                  Connect; Execute CreateTableIfNotExists; Commit; Close])).
Proof.
  apply (X4_no_reference_id_column [delete "reference_id" (item (VInt 1))] blank).
  - vm_compute. reflexivity.
  - intros r Hr. each_record Hr.
  - vm_compute. intros H. discriminate H.
Defined.

(** X5.  When the frame is otherwise fit to be written and has at least
    one keyed record, but one of the six other columns occurs in no
    record, the parameters of the first [INSERT] cannot be built: the
    call raises [KeyError] for a column that is missing, after the
    relation was created and before any [INSERT] is sent. *)
Theorem X5_missing_optional_column (h : list raw_record) (w : world) :
  "date" ∈ all_keys h → "reference_id" ∈ all_keys h →
  (∀ r, r ∈ h → is_OK (to_datetime (entry "date" r)) = true) →
  (∀ r, r ∈ h → has_key r →
        is_OK (int_of_cell (entry "reference_id" r)) = true) →
  (∃ r, r ∈ h ∧ has_key r) →
  (∃ c, c ∈ optional_cols ∧ c ∉ all_keys h) →
  ∃ c, c ∈ optional_cols ∧ (c ∉ all_keys h)
       ∧ fetch_history (answer h) None w
         = (Raise (KeyError c),
            World (Some (stored w)) None
                  (trace w ++ [Log INFO StartingETL; HttpGet 10;
                               Log INFO (Fetched (length h));
                               Log INFO (Processing (length h));
                               Connect; Execute CreateTableIfNotExists;
                               Commit; Close])).
Proof.
  intros Hdate Hkey Hdates Hkeys (r & Hr & Hk) Hmiss.
  destruct (filter has_key h) as [|r0 rs] eqn:Hf.
  { assert (r ∈ filter has_key h) as Hin by (by apply list_elem_of_filter).
    rewrite Hf in Hin. by apply elem_of_nil in Hin. }
  assert (r0 ∈ h) as Hr0.
  { assert (r0 ∈ filter has_key h) as Hin by (rewrite Hf; left).
    by apply list_elem_of_filter in Hin as [_ ?]. }
  destruct (bind_params_missing h r0 Hmiss) as (c & Hc & Hcm & Hbind).
  exists c. split; [done|]. split; [done|].
  rewrite fetch_history_answer.
  rewrite after_fetch_run by (by eapply all_keys_nonempty).
  simpl. rewrite (transform_OK h Hdate Hdates). simpl.
  rewrite length_fmap, load_healthy. simpl.
  rewrite (clean_OK h Hkey Hkeys), Hf.
  match goal with
  | |- context [write ?d ?w1] =>
      rewrite (write_KeyError d (normalized_row h r0)
                 (fmap (M:=list) (normalized_row h) rs) w1 (KeyError c)
                 eq_refl Hbind)
  end.
  unfold with_trace, stored. simpl. do 2 f_equal.
  rewrite <- ?app_assoc. simpl. by rewrite <- ?app_assoc.
Qed.

Lemma X5_witness :
  ∃ c, c ∈ optional_cols
       ∧ (c ∉ all_keys [delete "duration" (item (VInt 1))])
       ∧ fetch_history (answer [delete "duration" (item (VInt 1))]) None blank
         = (Raise (KeyError c),
            World (Some (stored blank)) None
                  (trace blank
                     ++ [Log INFO StartingETL; HttpGet 10;
                         Log INFO (Fetched (length [delete "duration" (item (VInt 1))]));
                         Log INFO (Processing (length [delete "duration" (item (VInt 1))]));
                         Connect; Execute CreateTableIfNotExists;
                         Commit; Close])).
Proof.
  apply (X5_missing_optional_column [delete "duration" (item (VInt 1))] blank).
  - vm_compute. reflexivity.
  - vm_compute. reflexivity.
  - intros r Hr. each_record Hr.
  - intros r Hr Hk. each_keyed_record Hr Hk.
  - eexists. split; [by left|]. vm_compute. reflexivity.
  - exists "duration". split; [unfold optional_cols; set_solver|].
    vm_compute. intros H. discriminate H.
Defined.



(** ** What a failed cycle leaves behind *)

Lemma after_fetch_raise_stored data link w e w' :
  after_fetch data link w = (Raise e, w') → stored w' = stored w.
Proof.
  unfold after_fetch. rewrite bind_run, lift_run.
  destruct (history_of data) as [history_data|e0]; [|by intros [= _ <-]].
  case_bool_decide; [by rewrite log_run|].
  rewrite bind_run, log_run, bind_run, lift_run.
  destruct (transform _) as [df|e0]; [|by intros [= _ <-]].
  rewrite bind_run, log_run, bind_run.
  match goal with
  | |- context [load link df ?w1] =>
      pose proof (load_spec link df w1) as Hl;
      destruct (load link df w1) as [[c|e0] w2]
  end.
  - by rewrite ret_run.
  - by intros [= _ <-].
Qed.

(** X7.  A call of [fetch_history] that raises has stored nothing: the
    rows of the relation are exactly those that were there before the
    call, whatever the answer was and wherever the connection dropped. *)
Theorem X7_a_failed_cycle_stores_nothing (net : http_result)
    (link : option nat) (w w' : world) (e : exn) :
  fetch_history net link w = (Raise e, w') → stored w' = stored w.
Proof.
  rewrite fetch_history_run. destruct (fetched net) as [e0|data]; [done|].
  intros H. by apply after_fetch_raise_stored in H.
Qed.

Lemma X7_witness :
  stored (fetch_history (answer [item (VInt 1); item (VInt 2)]) (Some 5%nat)
            (World (Some {[7 := stored_item 7]}) None [])).2
  = stored (World (Some {[7 := stored_item 7]}) None []).
Proof.
  apply (X7_a_failed_cycle_stores_nothing
           (answer [item (VInt 1); item (VInt 2)]) (Some 5%nat)
           (World (Some {[7 := stored_item 7]}) None []) _ OperationalError).
  vm_compute. reflexivity.
Defined.

Lemma load_conn link df w : conn w = None → conn (load link df w).2 = None.
Proof.
  intros Hc. unfold load. rewrite with_connection_run.
  destruct link as [[|n]|]; [done| |];
    match goal with
    | |- context [let (r, w') := ?x in _] => by destruct x
    | |- context [match ?x with (r, w') => _ end] => by destruct x
    end.
Qed.

(** X8.  [fetch_history] never returns with the connection open: a world
    without an open connection is left without one, however the call
    ends. *)
Theorem X8_connection_is_released (net : http_result) (link : option nat)
    (w : world) :
  conn w = None → conn (fetch_history net link w).2 = None.
Proof.
  intros Hc. rewrite fetch_history_run.
  destruct (fetched net) as [e|data]; [done|].
  unfold after_fetch. rewrite bind_run, lift_run.
  destruct (history_of data) as [history_data|e]; [|done].
  case_bool_decide; [done|].
  rewrite bind_run, log_run, bind_run, lift_run.
  destruct (transform _) as [df|e]; [|done].
  rewrite bind_run, log_run, bind_run.
  match goal with
  | |- context [load link df ?w1] =>
      pose proof (load_conn link df w1 Hc) as Hl;
      by destruct (load link df w1) as [[c|e] w2]
  end.
Qed.

Lemma X8_witness :
  conn (fetch_history (answer abc_batch) (Some 4%nat) blank).2 = None.
Proof. apply (X8_connection_is_released _ _ blank). reflexivity. Defined.

(** X9.  After a failure of the fetch step the call returns normally, so
    the loop logs the job as finished successfully, right after the error
    line, and sleeps. *)
Theorem X9_finished_after_a_fetch_error (net : http_result)
    (link : option nat) (w : world) :
  net = Unreachable ∨ net = TimedOut ∨
  (∃ r, net = Responded r ∧
        (400 ≤ status_code r < 600 ∨ content r = NotJson)) →
  ∃ e, pass (Cycle net link) w
       = (OK (), with_trace w [Log INFO StartingJob; Log INFO StartingETL;
                                HttpGet 10; Log ERROR (ErrorFetching e);
                                Log INFO JobFinished;
                                Log INFO (Sleeping 3600); Sleep 3600]).
Proof.
  intros H. rewrite pass_run, fetch_history_run. simpl.
  assert (∃ e, fetched net = inl e) as [e ->].
  { destruct H as [->|[->|(r & -> & H)]]; simpl; eauto.
    unfold raise_for_status, json. destruct H as [H|H].
    - replace ((400 <=? status_code r) && (status_code r <? 600)) with true
        by (symmetry; apply andb_true_iff; split;
            [apply Z.leb_le|apply Z.ltb_lt]; lia).
      eauto.
    - rewrite H. destruct (_ && _); eauto. }
  exists e. by rewrite !with_trace_app.
Qed.

Lemma X9_witness :
  ∃ e, pass (Cycle TimedOut None) blank
       = (OK (), with_trace blank [Log INFO StartingJob; Log INFO StartingETL;
                                    HttpGet 10; Log ERROR (ErrorFetching e);
                                    Log INFO JobFinished;
                                    Log INFO (Sleeping 3600); Sleep 3600]).
Proof. apply (X9_finished_after_a_fetch_error TimedOut None blank). auto. Defined.

(** X10.  A JSON answer on which the path to the history raises makes the
    call raise that exception right after the request, before anything
    else is logged or the store contacted; the loop logs it and sleeps. *)
Theorem X10_answer_without_history (r : response) (e : exn)
    (link : option nat) (w : world) :
  raise_for_status r = OK () → content r = Json (Malformed e) →
  fetch_history (Responded r) link w
  = (Raise e, with_trace w [Log INFO StartingETL; HttpGet 10])
  ∧ pass (Cycle (Responded r) link) w
    = (OK (), with_trace w [Log INFO StartingJob; Log INFO StartingETL;
                             HttpGet 10; Log ERROR (CriticalLoopError e);
                             Log INFO (Sleeping 3600); Sleep 3600]).
Proof.
  intros Hs Hc.
  assert (∀ w0, fetch_history (Responded r) link w0
                = (Raise e, with_trace w0 [Log INFO StartingETL; HttpGet 10]))
    as H.
  { intros w0. rewrite fetch_history_run. simpl. rewrite Hs.
    unfold json. rewrite Hc. reflexivity. }
  split; [apply H|].
  rewrite pass_run. simpl. rewrite H. by rewrite !with_trace_app.
Qed.

Lemma X10_witness :
  fetch_history (Responded (Response 200 (Json (Malformed TypeError)))) None blank
  = (Raise TypeError, with_trace blank [Log INFO StartingETL; HttpGet 10])
  ∧ pass (Cycle (Responded (Response 200 (Json (Malformed TypeError)))) None)
         blank
    = (OK (), with_trace blank [Log INFO StartingJob; Log INFO StartingETL;
                                 HttpGet 10;
                                 Log ERROR (CriticalLoopError TypeError);
                                 Log INFO (Sleeping 3600); Sleep 3600]).
Proof.
  apply (X10_answer_without_history (Response 200 (Json (Malformed TypeError)))
           TypeError None blank); reflexivity.
Defined.

(** ** Requests *)

Lemma emits_after_fetch P data link :
  (∀ s, P (Execute s)) → P Connect → P Commit → P Close →
  (∀ lvl msg, P (Log lvl msg)) →
  emits P (after_fetch data link).
Proof.
  intros. unfold after_fetch, log.
  repeat emits_step.
  case_bool_decide; repeat first [by apply emits_load | emits_step]; auto.
Qed.

Lemma requests_with_trace w evs :
  requests (with_trace w evs)
  = (requests w + length (filter (λ ev, ev = HttpGet 10) evs))%nat.
Proof. unfold requests, with_trace; simpl. by rewrite filter_app, length_app. Qed.

Lemma fetch_history_requests net link w :
  requests (fetch_history net link w).2 = S (requests w).
Proof.
  rewrite fetch_history_run. destruct (fetched net) as [e|data].
  - simpl. rewrite requests_with_trace. simpl. lia.
  - destruct (emits_after_fetch (λ ev, ev ≠ HttpGet 10) data link)
      with (w := with_trace w [Log INFO StartingETL; HttpGet 10])
      as (evs & Ht & HP); try done.
    unfold requests at 1. rewrite Ht, filter_app, length_app.
    fold (requests (with_trace w [Log INFO StartingETL; HttpGet 10])).
    rewrite requests_with_trace. simpl.
    replace (filter _ evs) with (@nil event); [simpl; lia|].
    symmetry. clear Ht. induction HP as [|ev evs Hev _ IH]; [done|].
    rewrite filter_cons_False; done.
Qed.

Lemma pass_requests c w : requests (pass c w).2 = S (requests w).
Proof.
  rewrite pass_run.
  pose proof (fetch_history_requests (net c) (link c)
                (with_trace w [Log INFO StartingJob])) as Hr.
  rewrite requests_with_trace in Hr. simpl in Hr.
  destruct (fetch_history _ _ _) as [[[]|e] w']; simpl in *;
    rewrite requests_with_trace; simpl; lia.
Qed.

(** X11.  Every pass of the loop sends exactly one request, whatever
    comes of it: after any run of the service the number of requests sent
    has grown by the number of passes made. *)
Theorem X11_one_request_per_pass (cs : list cycle) (w : world) :
  requests (main cs w).2 = (requests w + length cs)%nat.
Proof.
  unfold main. rewrite bind_run, log_run.
  assert (∀ w0, requests (loop cs w0).2 = (requests w0 + length cs)%nat) as H.
  { induction cs as [|c cs IH]; intros w0; simpl; [lia|].
    rewrite bind_run.
    pose proof (pass_requests c w0) as Hp.
    destruct (pass_sleeps c w0) as (w1 & Hrun & _).
    rewrite Hrun in *. simpl in Hp. rewrite IH. lia. }
  rewrite H, requests_with_trace. simpl. lia.
Qed.

(** ** The shape of the normalized frame *)

Lemma normalize_OK_inv h df :
  normalize h = OK df →
  "date" ∈ all_keys h ∧ "reference_id" ∈ all_keys h
  ∧ df = Frame (normalized_columns h) (normalized_row h <$> filter has_key h).
Proof.
  rewrite normalize_spec.
  destruct (decide ("date" ∈ all_keys h)); [|done].
  destruct (mapM to_datetime _); [|done].
  destruct (decide ("reference_id" ∈ all_keys h)); [|done].
  destruct (astype_int _); [|done].
  by intros [= <-].
Qed.

(** X12.  The frame the normalizer returns has one row per keyed record;
    its columns are [watched_at] and those columns of [cols] other than
    [date] that occur in some record of the batch, so that no other field
    of a record reaches the writer; and every row has an entry in exactly
    these columns. *)
Theorem X12_normalized_frame_shape (h : list raw_record) (df : DataFrame) :
  normalize h = OK df →
  length (rows df) = length (filter has_key h)
  ∧ (∀ c, c ∈ columns df ↔
          c = "watched_at" ∨ (c ∈ cols ∧ c ≠ "date" ∧ c ∈ all_keys h))
  ∧ ∀ row, row ∈ rows df → ∀ c, is_Some (row !! c) ↔ c ∈ columns df.
Proof.
  intros (Hdate & Hkey & ->)%normalize_OK_inv. simpl.
  assert (∀ c, c ∈ normalized_columns h ↔
               c = "watched_at" ∨ (c ∈ cols ∧ c ≠ "date" ∧ c ∈ all_keys h))
    as Hcols.
  { intros c. unfold normalized_columns.
    rewrite list_elem_of_filter, elem_of_app, elem_of_kept,
      list_elem_of_singleton.
    split.
    - intros [Hne [[? ?]| ->]]; auto.
    - intros [->|(? & ? & ?)]; auto. }
  split; [by rewrite length_fmap|]. split; [exact Hcols|].
  intros row (r & -> & [_ Hr]%list_elem_of_filter)%list_elem_of_fmap c.
  rewrite Hcols, lookup_normalized_row, lookup_transformed_row by done.
  destruct (decide (c = "reference_id")) as [->|Hc1].
  { split; [|eauto]. intros _. right.
    split; [apply reference_id_in_cols|done]. }
  destruct (decide (c = "date")) as [->|Hc2].
  { split; [by intros []|]. intros [?|(_ & ? & _)]; done. }
  destruct (decide (c = "watched_at")) as [->|Hc3]; [split; eauto|].
  destruct (decide (c ∈ kept h)) as [Hk|Hk].
  - apply elem_of_kept in Hk as [? ?]. split; eauto.
  - split; [by intros []|]. intros [?|(? & _ & ?)]; [done|].
    destruct Hk. by apply elem_of_kept.
Qed.

Lemma X12_witness :
  length (rows (value_or (Frame [] []) (normalize mixed_batch)))
  = length (filter has_key mixed_batch)
  ∧ (∀ c, c ∈ columns (value_or (Frame [] []) (normalize mixed_batch)) ↔
          c = "watched_at"
          ∨ (c ∈ cols ∧ c ≠ "date" ∧ c ∈ all_keys mixed_batch))
  ∧ ∀ row, row ∈ rows (value_or (Frame [] []) (normalize mixed_batch)) →
           ∀ c, is_Some (row !! c) ↔
                c ∈ columns (value_or (Frame [] []) (normalize mixed_batch)).
Proof.
  apply (X12_normalized_frame_shape mixed_batch).
  vm_compute. reflexivity.
Defined.

(** ** What is stored for a record *)

(** X13.  After a cycle on a batch of well-formed records, a record whose
    key was not stored before and that is the only record of the batch
    with that key is stored as the row made of its key, the timestamp of
    its date and its six other fields as they came, null where the
    record has null; a key that was stored before keeps the row it
    had. *)
Theorem X13_stored_row (h : list raw_record) (w : world) (r : raw_record)
    (k : Z) :
  (∀ r, r ∈ h → well_formed r = true) →
  r ∈ h → entry "reference_id" r = CInt k →
  (∀ q, stored w !! k = Some q →
        stored (fetch_history (answer h) None w).2 !! k = Some q)
  ∧ (stored w !! k = None →
     (∀ r', r' ∈ h → entry "reference_id" r' = CInt k → r' = r) →
     stored (fetch_history (answer h) None w).2 !! k
     = Some (row_of_record r)).
Proof.
  intros Hwf Hr Hk.
  assert (h ≠ []) as Hne by (intros ->; by apply elem_of_nil in Hr).
  assert (stored (fetch_history (answer h) None w).2
          = (upsert_all (rows_of_batch h) (stored w)).1) as ->.
  { rewrite fetch_history_answer.
    by rewrite (after_fetch_succeeds h Hwf _ Hne). }
  split.
  - intros q Hq. eapply lookup_weaken; [exact Hq|apply upsert_all_subseteq].
  - intros Hnew Huniq. rewrite upsert_all_first by done.
    unfold first_with_key.
    assert (has_key r) as Hhk by (unfold has_key; by rewrite Hk).
    assert (row_of_record r
              ∈ filter (λ p, pkey p = Some k) (rows_of_batch h)) as Hin.
    { apply list_elem_of_filter. split.
      - unfold pkey, row_of_record. simpl. by rewrite Hk.
      - unfold rows_of_batch. apply list_elem_of_fmap_2.
        by apply list_elem_of_filter. }
    destruct (filter (λ p, pkey p = Some k) (rows_of_batch h))
      as [|p ps] eqn:Hf; [by apply elem_of_nil in Hin|].
    simpl. f_equal.
    assert (p ∈ filter (λ p, pkey p = Some k) (rows_of_batch h)) as Hp
      by (rewrite Hf; left).
    apply list_elem_of_filter in Hp as [Hpk Hp].
    unfold rows_of_batch in Hp.
    apply list_elem_of_fmap in Hp as (r' & -> & [Hhk' Hr']%list_elem_of_filter).
    f_equal. apply Huniq; [done|].
    unfold pkey, row_of_record in Hpk. simpl in Hpk.
    destruct (entry "reference_id" r'); try done. by injection Hpk as ->.
Qed.

Lemma X13_witness :
  let h := [item (VInt 1); item VNull;
            <["platform" := VNull]> (item (VInt 3)); item (VInt 1)] in
  let r := <["platform" := VNull]> (item (VInt 3)) in
  (∀ q, stored blank !! 3 = Some q →
        stored (fetch_history (answer h) None blank).2 !! 3 = Some q)
  ∧ (stored blank !! 3 = None →
     (∀ r', r' ∈ h → entry "reference_id" r' = CInt 3 → r' = r) →
     stored (fetch_history (answer h) None blank).2 !! 3
     = Some (row_of_record r)).
Proof.
  intros h r. apply (X13_stored_row h blank r 3).
  - apply sample_batch_well_formed.
  - unfold h, r. set_solver.
  - vm_compute. reflexivity.
Defined.
